(** * AI Image Generator (src/main.py): dispatcher and session state

    A shallow embedding of the Streamlit script [src/main.py]:

    - [generate_image] (lines 73-105), the one function of the script: a
      single synchronous POST to the inference endpoint and the
      classification of the response;
    - the body of the script that reacts to the two buttons and keeps the
      last image in [st.session_state] (lines 108-154).

    Python values are modelled as follows.  [str] is a [string]; its
    characters are lower-cased on the ASCII letters only (the phrase that
    the script searches for is pure ASCII; case mappings of other
    alphabets are not modelled).  [int] is [Z].  [bytes] is
    [list byte].  A call that may raise returns an [outcome].
    [st.session_state] is a finite map from attribute names to values.
    The libraries that the script calls but does not define
    ([requests.post], [PIL.Image.open], [st.image], [Image.save], the float
    type) are the fields of the class [Runtime]. *)

From Stdlib Require Import ZArith String Ascii List DecimalString DecimalPos
  DecimalZ Lia.
From Stdlib.Strings Require Import Byte.
From Stdlib Require QArith_base.
From stdpp Require Import gmap strings.

Local Open Scope Z_scope.
Local Open Scope string_scope.

(** ** Python strings *)

Module PyStr.

(** [c.lower()] on one character: the 26 ASCII capitals move by 32. *)
Definition lower_ascii (c : ascii) : ascii :=
  let n := N_of_ascii c in
  if ((65 <=? n) && (n <=? 90))%N then ascii_of_N (n + 32) else c.

(** [s.lower()] *)
Fixpoint lower (s : string) : string :=
  match s with
  | EmptyString => EmptyString
  | String c s' => String (lower_ascii c) (lower s')
  end.

(** [s.startswith(p)] *)
Fixpoint startswith (p s : string) : bool :=
  match p, s with
  | EmptyString, _ => true
  | String _ _, EmptyString => false
  | String a p', String b s' => Ascii.eqb a b && startswith p' s'
  end.

(** [needle in s]: the needle starts at some position of [s]. *)
Fixpoint contains (needle s : string) : bool :=
  startswith needle s ||
  match s with
  | EmptyString => false
  | String _ s' => contains needle s'
  end.

(** [str(n)] and [f"{n}"] for an [int]: decimal digits, [-] when negative. *)
Definition of_int (n : Z) : string :=
  NilZero.string_of_int (Z.to_int n).

(** Truth value of a [str]: the empty string is false. *)
Definition truthy (s : string) : bool :=
  match s with
  | EmptyString => false
  | String _ _ => true
  end.

(** Two strings are equal when case is ignored. *)
Definition eq_nocase (a b : string) : Prop := lower a = lower b.

(** [text] has a substring equal to [needle] when case is ignored. *)
Definition contains_nocase (needle text : string) : Prop :=
  exists pre mid post,
    text = pre +:+ mid +:+ post /\ eq_nocase mid needle.

(** No line feed among the characters of a string. *)
Fixpoint one_line (s : string) : Prop :=
  match s with
  | EmptyString => True
  | String c s' => c <> ascii_of_N 10 /\ one_line s'
  end.

End PyStr.

(** ** Outcomes of calls that may raise *)

Inductive exn : Type :=
  | RequestException        (* requests: connection refused, DNS, timeout *)
  | UnidentifiedImageError  (* PIL.Image.open on bytes that are no image *)
  | OSError                 (* the image data cannot be loaded or encoded *)
  | AttributeError          (* st.session_state.<name> when absent *)
  | TypeError.              (* a value of the wrong kind *)

Inductive outcome (A : Type) : Type :=
  | Returned (a : A)
  | Raised (e : exn).
Arguments Returned {A} a.
Arguments Raised {A} e.

(** ** The HTTP exchange *)

(** The three attributes of a response that the script reads.  [text] is
    what [requests] decodes from [content]; the script reads [content] only
    on status 200 and [text] only on the other statuses, and the model
    relates the two fields in no way. *)

Record Response : Type := mkResponse {
  status_code : Z;          (* response.status_code *)
  content : list byte;      (* response.content *)
  text : string             (* response.text *)
}.

(** What the script needs from its libraries and from the remote service.
    [World] is the state of everything outside the script (the inference
    service, the network); a POST reads and changes it.  [Image.open]
    reads no more than it needs to recognise an image, so an image that it
    returns may still fail to load: [st_image] gives the exception that
    [st.image] raises on such an image, [None] when the image is drawn,
    and [Image_save_png] is [None] when [save] raises. *)
Class Runtime : Type := {
  Image : Type;
  pyfloat : Type;
  World : Type;
  requests_post :
    string -> string -> string * (Z * pyfloat) -> World ->
    outcome Response * World;
  Image_open : list byte -> option Image;
  st_image : Image -> option exn;
  Image_save_png : Image -> option (list byte)
}.

Section Dispatcher.

Context `{RT : Runtime}.

(** The pair that [generate_image] returns: [(image, error)], either of
    which may be [None]. *)
Definition pyresult : Type := (option Image * option string)%type.

Definition LOADING_NEEDLE : string := "waiting for the model to be loaded".

Definition LOADING_MESSAGE : string :=
  "Model is still loading. Please wait a moment and try again.".

Definition newline : string := String (ascii_of_N 10) EmptyString.

(** [f"Error: {response.status_code}\n{response.text}"] *)
Definition error_message (status : Z) (body : string) : string :=
  "Error: " +:+ PyStr.of_int status +:+ newline +:+ body.

(** [f"https://api-inference.huggingface.co/models/{model_id}"] *)
Definition api_url (model_id : string) : string :=
  "https://api-inference.huggingface.co/models/" +:+ model_id.

(** The value of the [Authorization] header. *)
Definition authorization (api_token : string) : string :=
  "Bearer " +:+ api_token.

(** [payload]: the prompt under ["inputs"], the two numbers under
    ["parameters"]. *)
Definition payload (prompt : string) (num_steps : Z) (guidance_scale : pyfloat)
  : string * (Z * pyfloat) :=
  (prompt, (num_steps, guidance_scale)).

(** Lines 73-105. *)
Definition generate_image
    (prompt model_id api_token : string) (num_steps : Z)
    (guidance_scale : pyfloat) (w : World) : outcome pyresult * World :=
  match requests_post (api_url model_id) (authorization api_token)
                      (payload prompt num_steps guidance_scale) w with
  | (Raised e, w') => (Raised e, w')
  | (Returned response, w') =>
      if (status_code response =? 200)%Z then
        match Image_open (content response) with
        | Some image => (Returned (Some image, None), w')
        | None => (Raised UnidentifiedImageError, w')
        end
      else if PyStr.contains LOADING_NEEDLE (PyStr.lower (text response)) then
        (Returned (None, Some LOADING_MESSAGE), w')
      else
        (Returned
           (None, Some (error_message (status_code response) (text response))),
         w')
  end.

(** ** The result as the design document names it

    [generate_image] returns a pair; the design document speaks of a value
    with three cases.  [to_pair] is the pair that stands for each case and
    [tag_of] reads the case back from a pair. *)

Inductive GenerationResult : Type :=
  | ImageResult (image : Image)
  | RetryableError (message : string)
  | FatalError (status : Z) (body : string).

Definition to_pair (r : GenerationResult) : pyresult :=
  match r with
  | ImageResult image => (Some image, None)
  | RetryableError message => (None, Some message)
  | FatalError status body => (None, Some (error_message status body))
  end.

(** Exactly one component of the pair is not [None]. *)
Definition exactly_one (p : pyresult) : Prop :=
  match p with
  | (Some _, None) | (None, Some _) => True
  | (Some _, Some _) | (None, None) => False
  end.

Inductive Tag : Type := TagImage | TagRetryable | TagFatal.

Definition tag_of (p : pyresult) : option Tag :=
  match p with
  | (Some _, _) => Some TagImage
  | (None, Some message) =>
      if String.eqb message LOADING_MESSAGE then Some TagRetryable
      else if PyStr.startswith "Error: " message then Some TagFatal
      else None
  | (None, None) => None
  end.

Definition outcome_tag (o : outcome pyresult) : outcome (option Tag) :=
  match o with
  | Returned p => Returned (tag_of p)
  | Raised e => Raised e
  end.

(** A mock of the endpoint is deterministic when its answer to a request
    does not depend on the state of the world. *)
Definition deterministic_mock : Prop :=
  forall url auth body w1 w2,
    fst (requests_post url auth body w1) = fst (requests_post url auth body w2).

(** Two answers of the endpoint that are classified alike: the same status,
    the same text, and bodies that both decode or both fail to decode (the
    bytes themselves may differ). *)
Definition same_class (a b : outcome Response) : Prop :=
  match a, b with
  | Returned ra, Returned rb =>
      status_code ra = status_code rb /\ text ra = text rb /\
      (is_Some (Image_open (content ra)) <-> is_Some (Image_open (content rb)))
  | Raised ea, Raised eb => ea = eb
  | _, _ => False
  end.

(** A mock of the endpoint is deterministic up to the bytes of its images
    when its answers to a request, in any two states of the world, are
    classified alike. *)
Definition deterministic_up_to_bytes : Prop :=
  forall url auth body w1 w2,
    same_class (fst (requests_post url auth body w1))
               (fst (requests_post url auth body w2)).

(** The tag that the design document gives to an answer of the endpoint,
    or the exception that stands in its place. *)
Inductive classified : outcome Response -> outcome Tag -> Prop :=
  | classified_image response image :
      status_code response = 200 ->
      Image_open (content response) = Some image ->
      classified (Returned response) (Returned TagImage)
  | classified_undecodable response :
      status_code response = 200 ->
      Image_open (content response) = None ->
      classified (Returned response) (Raised UnidentifiedImageError)
  | classified_retryable response :
      status_code response <> 200 ->
      PyStr.contains_nocase LOADING_NEEDLE (text response) ->
      classified (Returned response) (Returned TagRetryable)
  | classified_fatal response :
      status_code response <> 200 ->
      ~ PyStr.contains_nocase LOADING_NEEDLE (text response) ->
      classified (Returned response) (Returned TagFatal)
  | classified_no_answer e :
      classified (Raised e) (Raised e).

(** A call that ends with the tag [t], or with the exception [t]. *)
Definition ends_with (o : outcome pyresult) (t : outcome Tag) : Prop :=
  match t with
  | Returned tag => exists p, o = Returned p /\ tag_of p = Some tag
  | Raised e => o = Raised e
  end.

End Dispatcher.

(** ** The clock and the name of the download *)

(** A naive local [datetime], as [datetime.now()] returns it. *)
Record datetime : Type := mkdatetime {
  year : Z; month : Z; day : Z; hour : Z; minute : Z; second : Z
}.

(** The ranges that Python's [datetime] enforces. *)
Definition datetime_valid (d : datetime) : Prop :=
  1 <= year d <= 9999 /\ 1 <= month d <= 12 /\ 1 <= day d <= 31 /\
  0 <= hour d <= 23 /\ 0 <= minute d <= 59 /\ 0 <= second d <= 59.

Definition digit (n : Z) : ascii := ascii_of_N (48 + Z.to_N (n mod 10)).

Definition two_digits (n : Z) : string :=
  String (digit (n / 10)) (String (digit n) EmptyString).

Definition four_digits (n : Z) : string :=
  String (digit (n / 1000)) (String (digit (n / 100)) (two_digits n)).

(** [d.strftime('%Y%m%d_%H%M%S')]: every field zero-padded to its width. *)
Definition strftime_Ymd_HMS (d : datetime) : string :=
  four_digits (year d) +:+ two_digits (month d) +:+ two_digits (day d) +:+
  "_" +:+
  two_digits (hour d) +:+ two_digits (minute d) +:+ two_digits (second d).

Definition is_digit (c : ascii) : bool :=
  ((48 <=? N_of_ascii c) && (N_of_ascii c <=? 57))%N.

(** The number that a digit character stands for. *)
Definition digit_value (c : ascii) : Z := Z.of_N (N_of_ascii c) - 48.

(** [f"ai_image_{...}.png"] (line 146) *)
Definition download_file_name (d : datetime) : string :=
  "ai_image_" +:+ strftime_Ymd_HMS d +:+ ".png".

(** ** The page *)

(** The entries of the model select box (lines 43-48). *)
Inductive Model : Type :=
  | StableDiffusion21 | StableDiffusion15 | StableDiffusion14 | OpenJourney.

Definition model_name (m : Model) : string :=
  match m with
  | StableDiffusion21 => "stabilityai/stable-diffusion-2-1"
  | StableDiffusion15 => "runwayml/stable-diffusion-v1-5"
  | StableDiffusion14 => "CompVis/stable-diffusion-v1-4"
  | OpenJourney => "prompthero/openjourney"
  end.

Section Page.

Context `{RT : Runtime}.

(** A value held in [st.session_state]. *)
Inductive pyval : Type :=
  | PImage (image : Image)
  | PStr (s : string).

(** What one run of the script reads from the page and from the clock:
    the widget values, which buttons report a click in this run, and the
    reading of [datetime.now()].  A button reports a click whatever the
    other button reports and whether or not it is drawn disabled: the
    checks that the script makes itself are what the model relies on. *)
Record Inputs : Type := mkInputs {
  api_token : string;
  model_id : Model;
  prompt : string;
  num_steps : Z;
  guidance_scale : pyfloat;
  generate_clicked : bool;
  create_new_clicked : bool;
  now : datetime
}.

(** What a run does that can be observed: the calls of [generate_image]
    and the elements put on the page by lines 108-154. *)
Inductive event : Type :=
  | EvDispatch (prompt model_id api_token : string) (num_steps : Z)
               (guidance_scale : pyfloat)
  | EvError (message : string)
  | EvHeader (title : string)
  | EvImage (image : Image) (caption : string)
  | EvDownload (data : list byte) (file_name mime : string)
  | EvTips.

(** How a run ends: at the last line, at [st.rerun()], or at an exception
    that nothing in the script catches. *)
Inductive ending : Type :=
  | Finished
  | RerunRequested
  | Uncaught (e : exn).

Record Run : Type := mkRun {
  session_after : gmap string pyval;
  world_after : World;
  trace : list event;
  end_of_run : ending
}.

(** Lines 108-129: the Generate button.  [if image:] holds for every image
    object and fails for [None]; [elif error:] holds for a string that is
    not empty.  The spinner draws and does nothing else. *)
Definition generate_block (inp : Inputs) (ss : gmap string pyval) (w : World)
  : Run :=
  if generate_clicked inp then
    if negb (PyStr.truthy (api_token inp)) then
      mkRun ss w
        [EvError "Please enter your Hugging Face API token in the sidebar."]
        Finished
    else if negb (PyStr.truthy (prompt inp)) then
      mkRun ss w
        [EvError "Please enter a prompt to generate an image."]
        Finished
    else
      let call :=
        EvDispatch (prompt inp) (model_name (model_id inp)) (api_token inp)
                   (num_steps inp) (guidance_scale inp) in
      match generate_image (prompt inp) (model_name (model_id inp))
                           (api_token inp) (num_steps inp)
                           (guidance_scale inp) w with
      | (Raised e, w') => mkRun ss w' [call] (Uncaught e)
      | (Returned (image, error), w') =>
          match image with
          | Some img =>
              mkRun (<["last_prompt" := PStr (prompt inp)]>
                       (<["last_image" := PImage img]> ss))
                    w' [call] Finished
          | None =>
              match error with
              | Some message =>
                  if PyStr.truthy message
                  then mkRun ss w' [call; EvError message] Finished
                  else mkRun ss w' [call] Finished
              | None => mkRun ss w' [call] Finished
              end
          end
      end
  else mkRun ss w [] Finished.

(** Lines 132-154: the last image, its download button and the Create New
    Image button.  [st.image] (line 134) comes before the save (line 138)
    and either may raise, which ends the run there.  A session in which
    [last_image] is no image or [last_prompt] no string is never produced
    by the script (lemma [reachable_session_shape]); there the model ends
    the run with [TypeError]. *)
Definition display_block (inp : Inputs) (ss : gmap string pyval) (w : World)
  : Run :=
  match ss !! "last_image" with
  | None => mkRun ss w [] Finished
  | Some v =>
      match ss !! "last_prompt" with
      | None => mkRun ss w [EvHeader "Your Generated Image"]
                      (Uncaught AttributeError)
      | Some c =>
          match v, c with
          | PImage img, PStr caption =>
              match st_image img with
              | Some e =>
                  mkRun ss w [EvHeader "Your Generated Image"] (Uncaught e)
              | None =>
                  match Image_save_png img with
                  | None =>
                      mkRun ss w
                        [EvHeader "Your Generated Image"; EvImage img caption]
                        (Uncaught OSError)
                  | Some byte_im =>
                      let shown :=
                        [EvHeader "Your Generated Image"; EvImage img caption;
                         EvDownload byte_im (download_file_name (now inp))
                                    "image/png"] in
                      if create_new_clicked inp then
                        mkRun (delete "last_prompt" (delete "last_image" ss))
                              w shown RerunRequested
                      else mkRun ss w shown Finished
                  end
              end
          | _, _ => mkRun ss w [EvHeader "Your Generated Image"]
                          (Uncaught TypeError)
          end
      end
  end.

(** Lines 157-164: the tips, shown when no image is held. *)
Definition tips_block (ss : gmap string pyval) : list event :=
  match ss !! "last_image" with
  | None => [EvTips]
  | Some _ => []
  end.

(** One run of the script from top to bottom.  A block is reached only
    when the one before it ended normally. *)
Definition script (inp : Inputs) (ss : gmap string pyval) (w : World) : Run :=
  let r1 := generate_block inp ss w in
  match end_of_run r1 with
  | Finished =>
      let r2 := display_block inp (session_after r1) (world_after r1) in
      match end_of_run r2 with
      | Finished =>
          mkRun (session_after r2) (world_after r2)
                (trace r1 ++ trace r2 ++ tips_block (session_after r2))
                Finished
      | e => mkRun (session_after r2) (world_after r2)
                   (trace r1 ++ trace r2) e
      end
  | _ => r1
  end.

(** The sessions that runs of the script can produce, starting from the
    empty session of a new browser tab. *)
Inductive reachable : gmap string pyval -> Prop :=
  | reachable_empty : reachable ∅
  | reachable_run inp ss w :
      reachable ss -> reachable (session_after (script inp ss w)).

(** The file names offered for download in a trace. *)
Fixpoint download_names (t : list event) : list string :=
  match t with
  | [] => []
  | EvDownload _ name _ :: t' => name :: download_names t'
  | _ :: t' => download_names t'
  end.

(** The arguments of the calls of [generate_image] in a trace. *)
Fixpoint dispatched (t : list event) : list (string * string) :=
  match t with
  | [] => []
  | EvDispatch p _ tok _ _ :: t' => (p, tok) :: dispatched t'
  | _ :: t' => dispatched t'
  end.

(** The session that holds exactly one image with its prompt. *)
Definition holding (img : Image) (p : string) : gmap string pyval :=
  <["last_prompt" := PStr p]> (<["last_image" := PImage img]> ∅).

(** The session holds nothing, or one image with its prompt and nothing
    else. *)
Definition at_most_one_result (ss : gmap string pyval) : Prop :=
  ss = ∅ \/ exists img p, ss = holding img p.

(** The Generate button was clicked with both the token and the prompt
    filled in: the run calls [generate_image]. *)
Definition request_starts (inp : Inputs) : Prop :=
  generate_clicked inp = true /\
  PyStr.truthy (api_token inp) = true /\
  PyStr.truthy (prompt inp) = true.

(** [not api_token or not prompt]: the [disabled] argument with which the
    Generate button is drawn (line 108). *)
Definition generate_disabled (inp : Inputs) : bool :=
  negb (PyStr.truthy (api_token inp)) || negb (PyStr.truthy (prompt inp)).

(** The two messages of lines 110 and 112. *)
Definition TOKEN_MISSING : string :=
  "Please enter your Hugging Face API token in the sidebar.".

Definition PROMPT_MISSING : string :=
  "Please enter a prompt to generate an image.".

(** The call of [generate_image] that a run makes when a request starts,
    as it appears in the trace. *)
Definition call_of (inp : Inputs) : event :=
  EvDispatch (prompt inp) (model_name (model_id inp)) (api_token inp)
             (num_steps inp) (guidance_scale inp).

(** The POST that a run sends when a request starts. *)
Definition post_of (inp : Inputs) (w : World) : outcome Response * World :=
  requests_post (api_url (model_name (model_id inp)))
                (authorization (api_token inp))
                (payload (prompt inp) (num_steps inp) (guidance_scale inp)) w.

(** The image [img] came out of a call of [generate_image] on the prompt
    [p], with some model, some token that is not empty and some settings. *)
Definition produced_by (img : Image) (p : string) : Prop :=
  exists (m : Model) (tok : string) (n : Z) (g : pyfloat) (w : World),
    PyStr.truthy p = true /\ PyStr.truthy tok = true /\
    fst (generate_image p (model_name m) tok n g w)
      = Returned (Some img, None).

(** The images drawn in a trace, each with its caption. *)
Fixpoint images_shown (t : list event) : list (Image * string) :=
  match t with
  | [] => []
  | EvImage img caption :: t' => (img, caption) :: images_shown t'
  | _ :: t' => images_shown t'
  end.

End Page.

(** ** A scripted endpoint for concrete runs

    The endpoint answers by the prompt alone and counts the requests it has
    served; an image is the data that follows the PNG signature. *)

Module Mock.

Definition png_signature : list byte :=
  [x89; x50; x4e; x47; x0d; x0a; x1a; x0a].

Fixpoint strip_prefix (p b : list byte) : option (list byte) :=
  match p, b with
  | [], _ => Some b
  | _ :: _, [] => None
  | x :: p', y :: b' => if Byte.eqb x y then strip_prefix p' b' else None
  end.

Definition open (b : list byte) : option (list byte) :=
  strip_prefix png_signature b.

Definition save (img : list byte) : option (list byte) :=
  Some (png_signature ++ img)%list.

Definition red_ball : list byte := [x01; x02; x03].

Definition red_ball_png : list byte := (png_signature ++ red_ball)%list.

Definition blue_cube_png : list byte := (png_signature ++ [x09])%list.

Definition post (url auth : string) (body : string * (Z * QArith_base.Q))
    (served : nat) : outcome Response * nat :=
  let answer :=
    if String.eqb (fst body) "a red ball" then
      Returned (mkResponse 200 red_ball_png EmptyString)
    else if String.eqb (fst body) "a blue cube" then
      Returned (mkResponse 200 blue_cube_png EmptyString)
    else if String.eqb (fst body) "cold start" then
      Returned (mkResponse 503 []
        "error: Waiting for the model to be LOADED (estimated_time 20.0)")
    else if String.eqb (fst body) "not an image" then
      Returned (mkResponse 200 [x7b; x7d] "{}")
    else if String.eqb (fst body) "offline" then
      Raised RequestException
    else
      Returned (mkResponse 500 [] "Internal Server Error")
  in (answer, S served).

Definition runtime : Runtime := {|
  Image := list byte;
  pyfloat := QArith_base.Q;
  World := nat;
  requests_post := post;
  Image_open := open;
  st_image := fun _ => None;
  Image_save_png := save
|}.

(** An endpoint that always answers 200 with a PNG body, a different one
    at every request: the same class of answer, not the same bytes. *)
Definition noisy_post (url auth : string) (body : string * (Z * QArith_base.Q))
    (served : nat) : outcome Response * nat :=
  (Returned
     (mkResponse 200 (png_signature ++ repeat x2a served)%list EmptyString),
   S served).

Definition noisy : Runtime := {|
  Image := list byte;
  pyfloat := QArith_base.Q;
  World := nat;
  requests_post := noisy_post;
  Image_open := open;
  st_image := fun _ => None;
  Image_save_png := save
|}.

Definition seven_and_a_half : @pyfloat runtime := QArith_base.Qmake 15 2.

Definition noon : datetime := mkdatetime 2024 3 9 12 0 5.
Definition later : datetime := mkdatetime 2024 3 9 12 7 41.

(** The page filled in, with the Generate button clicked. *)
Definition ask (token p : string) (t : datetime) : @Inputs runtime :=
  @mkInputs runtime token StableDiffusion21 p 50 seven_and_a_half true false t.

(** The page redrawn with no button clicked. *)
Definition redraw (token p : string) (t : datetime) : @Inputs runtime :=
  @mkInputs runtime token StableDiffusion21 p 50 seven_and_a_half false false t.

(** The Create New Image button clicked. *)
Definition clear (token p : string) (t : datetime) : @Inputs runtime :=
  @mkInputs runtime token StableDiffusion21 p 50 seven_and_a_half false true t.

(** A runtime whose encoder refuses an image without data. *)
Definition picky_save (img : list byte) : option (list byte) :=
  match img with
  | [] => None
  | _ :: _ => save img
  end.

Definition picky : Runtime := {|
  Image := list byte;
  pyfloat := QArith_base.Q;
  World := nat;
  requests_post := post;
  Image_open := open;
  st_image := fun _ => None;
  Image_save_png := picky_save
|}.

(** A runtime in which an image without data, such as a file cut short
    after its header, is opened but can be neither drawn nor saved. *)
Definition cut_short (img : list byte) : option exn :=
  match img with
  | [] => Some OSError
  | _ :: _ => None
  end.

Definition truncating : Runtime := {|
  Image := list byte;
  pyfloat := QArith_base.Q;
  World := nat;
  requests_post := post;
  Image_open := open;
  st_image := cut_short;
  Image_save_png := picky_save
|}.

Definition sd21 : string := model_name StableDiffusion21.

(** Create New Image clicked on the page of the picky runtime. *)
Definition picky_clear (t : datetime) : @Inputs picky :=
  @mkInputs picky "hf_demo" StableDiffusion21 "a red ball" 50
            seven_and_a_half false true t.

(** Create New Image clicked on the page of the truncating runtime. *)
Definition truncating_clear (t : datetime) : @Inputs truncating :=
  @mkInputs truncating "hf_demo" StableDiffusion21 "a red ball" 50
            seven_and_a_half false true t.

(** The first run of a session: a request that succeeds at noon. *)
Definition first_run : @Run runtime :=
  script (ask "hf_demo" "a red ball" noon) ∅ 0%nat.

End Mock.

(** * Facts *)

(** ** Strings *)

Module PyStrFacts.
Import PyStr.

Lemma lower_app (a b : string) : lower (a +:+ b) = lower a +:+ lower b.
Proof. induction a as [|c a IH]; simpl; [reflexivity | now rewrite IH]. Qed.

(** A split of the lower-cased string is the image of a split of the
    string itself: lower-casing is character by character. *)
Lemma lower_app_inv (p q s : string) :
  lower s = p +:+ q ->
  exists a b, s = a +:+ b /\ lower a = p /\ lower b = q.
Proof.
  revert s. induction p as [|c p IH]; intros s H.
  - exists EmptyString, s. repeat split. exact H.
  - destruct s as [|d s]; simpl in H; [discriminate|].
    injection H as Hc Hs.
    destruct (IH s Hs) as (a & b & -> & Ha & Hb).
    exists (String d a), b. simpl. now rewrite Hc, Ha, Hb.
Qed.

Lemma startswith_spec (p s : string) :
  startswith p s = true <-> exists t, s = p +:+ t.
Proof.
  revert s. induction p as [|a p IH]; intros s; simpl.
  - split; [intros _; now exists s | reflexivity].
  - destruct s as [|b s].
    + split; [discriminate | intros [t Ht]; discriminate].
    + rewrite andb_true_iff, IH. split.
      * intros [Hab [t ->]]. apply Ascii.eqb_eq in Hab as ->. now exists t.
      * intros [t Ht]. injection Ht as -> ->. split.
        -- apply Ascii.eqb_refl.
        -- now exists t.
Qed.

Lemma contains_spec (needle s : string) :
  contains needle s = true <-> exists pre post, s = pre +:+ needle +:+ post.
Proof.
  induction s as [|c s IH].
  - cbn [contains]. rewrite orb_false_r, startswith_spec. split.
    + intros [t Ht]. now exists EmptyString, t.
    + intros (pre & post & H). destruct pre; [|discriminate].
      now exists post.
  - cbn [contains]. rewrite orb_true_iff, startswith_spec, IH. split.
    + intros [[t Ht] | (pre & post & ->)].
      * now exists EmptyString, t.
      * now exists (String c pre), post.
    + intros (pre & post & H). destruct pre as [|d pre].
      * left. now exists post.
      * right. injection H as _ ->. now exists pre, post.
Qed.

(** The test of the script, [needle in text.lower()], is the search for
    the needle with case ignored, for a needle in lower case. *)
Lemma contains_lower_nocase (needle text : string) :
  lower needle = needle ->
  contains needle (lower text) = true <-> contains_nocase needle text.
Proof.
  intros Hn. rewrite contains_spec. unfold contains_nocase, eq_nocase. split.
  - intros (pre & post & H).
    apply lower_app_inv in H as (a & b & -> & _ & Hb).
    apply lower_app_inv in Hb as (m & c & -> & Hm & _).
    exists a, m, c. split; [reflexivity | congruence].
  - intros (pre & mid & post & -> & Hm).
    exists (lower pre), (lower post).
    rewrite !lower_app. congruence.
Qed.

Lemma one_line_uint (d : Decimal.uint) :
  one_line (NilEmpty.string_of_uint d).
Proof. induction d; simpl; (split; [discriminate | assumption]) || exact I. Qed.

Lemma one_line_of_int (n : Z) : one_line (of_int n).
Proof.
  unfold of_int, NilZero.string_of_int, NilZero.string_of_uint.
  destruct (Z.to_int n) as [d|d]; destruct d;
    try (simpl; repeat split; discriminate);
    try (split; [discriminate | apply one_line_uint]);
    try (split; [discriminate|]; split; [discriminate | apply one_line_uint]).
Qed.

(** The first line feed of a string marks where its first line ends. *)
Lemma first_line_unique (a a' b b' : string) :
  one_line a -> one_line a' ->
  a +:+ String (ascii_of_N 10) b = a' +:+ String (ascii_of_N 10) b' ->
  a = a' /\ b = b'.
Proof.
  revert a'. induction a as [|c a IH]; intros [|c' a'] Ha Ha' H; simpl in *.
  - now injection H.
  - injection H as Hc _. destruct Ha' as [Hne _]. now symmetry in Hc.
  - injection H as Hc _. destruct Ha as [Hne _]. contradiction.
  - injection H as -> H. destruct Ha as [_ Ha], Ha' as [_ Ha'].
    destruct (IH a' Ha Ha' H) as [-> ->]. now split.
Qed.

Lemma of_int_inj (n m : Z) : of_int n = of_int m -> n = m.
Proof.
  unfold of_int. intros H.
  assert (Hnn : forall z, Z.to_int z <> Decimal.Pos Decimal.Nil /\
                          Z.to_int z <> Decimal.Neg Decimal.Nil).
  { intros [|p|p]; simpl; split; try discriminate;
      intros [= Hp]; now apply Unsigned.to_uint_nonnil in Hp. }
  assert (Hs : Some (Z.to_int n) = Some (Z.to_int m)).
  { rewrite <- (NilZero.isi (Z.to_int n)), <- (NilZero.isi (Z.to_int m));
      try apply Hnn. now rewrite H. }
  injection Hs as Hs.
  rewrite <- (DecimalZ.of_to n), <- (DecimalZ.of_to m). now rewrite Hs.
Qed.

End PyStrFacts.

(** ** The dispatcher *)

Section DispatcherFacts.

Context `{RT : Runtime}.

Implicit Types (prompt model_id api_token : string) (num_steps : Z).
Implicit Types (guidance_scale : pyfloat) (w : World) (response : Response).

(** The two kinds of error message never coincide. *)
Lemma error_message_not_loading status body :
  String.eqb (error_message status body) LOADING_MESSAGE = false.
Proof. reflexivity. Qed.

Lemma error_message_starts status body :
  PyStr.startswith "Error: " (error_message status body) = true.
Proof. reflexivity. Qed.

(** The status and the body can be read back from the message: the
    message determines both. *)
Lemma error_message_inj status body status' body' :
  error_message status body = error_message status' body' ->
  status = status' /\ body = body'.
Proof.
  unfold error_message, newline. cbn [String.append]. intros H.
  injection H as H.
  apply PyStrFacts.first_line_unique in H as [Hs Hb];
    try apply PyStrFacts.one_line_of_int.
  split; [now apply PyStrFacts.of_int_inj | exact Hb].
Qed.

Lemma to_pair_fatal_inj status body status' body' :
  to_pair (FatalError status body) = to_pair (FatalError status' body') ->
  status = status' /\ body = body'.
Proof.
  intros H. apply error_message_inj.
  exact (f_equal (fun p : pyresult =>
                    match snd p with Some m => m | None => EmptyString end) H).
Qed.

(** [tag_of] reads back the case that [to_pair] wrote. *)
Lemma tag_of_to_pair (r : GenerationResult) :
  tag_of (to_pair r) =
  match r with
  | ImageResult _ => Some TagImage
  | RetryableError m =>
      if String.eqb m LOADING_MESSAGE then Some TagRetryable
      else if PyStr.startswith "Error: " m then Some TagFatal else None
  | FatalError _ _ => Some TagFatal
  end.
Proof. destruct r; reflexivity. Qed.

(** Every pair that [generate_image] returns has a tag. *)
Lemma generate_image_tagged
    prompt model_id api_token num_steps guidance_scale w p w' :
  generate_image prompt model_id api_token num_steps guidance_scale w
    = (Returned p, w') ->
  is_Some (tag_of p).
Proof.
  unfold generate_image.
  destruct (requests_post _ _ _ w) as [[response|e] w1]; [|discriminate].
  destruct (status_code response =? 200)%Z.
  - destruct (Image_open (content response)); [|discriminate].
    intros [= <- _]. now eexists.
  - destruct (PyStr.contains _ _); intros [= <- _]; now eexists.
Qed.

Lemma lower_needle : PyStr.lower LOADING_NEEDLE = LOADING_NEEDLE.
Proof. reflexivity. Qed.

(** The branch taken on a status other than 200 is decided by the search
    with case ignored. *)
Lemma loading_test_spec response :
  PyStr.contains LOADING_NEEDLE (PyStr.lower (text response)) = true <->
  PyStr.contains_nocase LOADING_NEEDLE (text response).
Proof. apply PyStrFacts.contains_lower_nocase, lower_needle. Qed.

Lemma status_test response :
  status_code response <> 200 -> (status_code response =? 200)%Z = false.
Proof. intros H. now apply Z.eqb_neq. Qed.

(** What [generate_image] does with each answer of the endpoint, in one
    equation. *)
Lemma generate_image_eq prompt model_id api_token num_steps guidance_scale w :
  generate_image prompt model_id api_token num_steps guidance_scale w =
  match requests_post (api_url model_id) (authorization api_token)
                      (payload prompt num_steps guidance_scale) w with
  | (Raised e, w') => (Raised e, w')
  | (Returned response, w') =>
      if (status_code response =? 200)%Z then
        match Image_open (content response) with
        | Some image => (Returned (to_pair (ImageResult image)), w')
        | None => (Raised UnidentifiedImageError, w')
        end
      else if PyStr.contains LOADING_NEEDLE (PyStr.lower (text response)) then
        (Returned (to_pair (RetryableError LOADING_MESSAGE)), w')
      else
        (Returned
           (to_pair (FatalError (status_code response) (text response))), w')
  end.
Proof. reflexivity. Qed.

(** C1. When the response has status 200 and its body decodes, the
    dispatcher returns the decoded image of exactly that body as the image
    component, with no error: the pair [(image, None)], the [ImageResult]
    case. *)
Theorem generate_image_success
    prompt model_id api_token num_steps guidance_scale w response w' image :
  requests_post (api_url model_id) (authorization api_token)
                (payload prompt num_steps guidance_scale) w
    = (Returned response, w') ->
  status_code response = 200 ->
  Image_open (content response) = Some image ->
  generate_image prompt model_id api_token num_steps guidance_scale w
    = (Returned (to_pair (ImageResult image)), w') /\
  to_pair (ImageResult image) = (Some image, None).
Proof.
  intros Hpost Hstatus Hopen. split; [|reflexivity].
  rewrite generate_image_eq, Hpost, Hstatus, Hopen. reflexivity.
Qed.


(** C3. When the response has a status other than 200 and its text does
    not contain the model-loading phrase, the dispatcher returns the fatal
    error for that status and that text: the message is ["Error: "], the
    status in decimal, a line feed and the text unchanged, so that the
    status and the text are both determined by the message. *)
Theorem generate_image_fatal
    prompt model_id api_token num_steps guidance_scale w response w' :
  requests_post (api_url model_id) (authorization api_token)
                (payload prompt num_steps guidance_scale) w
    = (Returned response, w') ->
  status_code response <> 200 ->
  ~ PyStr.contains_nocase LOADING_NEEDLE (text response) ->
  generate_image prompt model_id api_token num_steps guidance_scale w
    = (Returned (to_pair (FatalError (status_code response) (text response))),
       w') /\
  to_pair (FatalError (status_code response) (text response))
    = (None,
       Some ("Error: " +:+ PyStr.of_int (status_code response) +:+
             newline +:+ text response)) /\
  tag_of (to_pair (FatalError (status_code response) (text response)))
    = Some TagFatal /\
  (forall status body,
     to_pair (FatalError status body)
       = to_pair (FatalError (status_code response) (text response)) ->
     status = status_code response /\ body = text response).
Proof.
  intros Hpost Hstatus Hload. repeat split.
  - rewrite <- loading_test_spec in Hload.
    apply not_true_is_false in Hload.
    rewrite generate_image_eq, Hpost, (status_test _ Hstatus), Hload.
    reflexivity.
  - now apply to_pair_fatal_inj in H.
  - now apply to_pair_fatal_inj in H.
Qed.

(** C4, as the script has it.  When the response has status 200 and its
    body does not decode, the dispatcher returns nothing: the exception of
    the decoder leaves [generate_image] uncaught, and no pair, hence no
    error message, is produced. *)
Theorem generate_image_undecodable
    prompt model_id api_token num_steps guidance_scale w response w' :
  requests_post (api_url model_id) (authorization api_token)
                (payload prompt num_steps guidance_scale) w
    = (Returned response, w') ->
  status_code response = 200 ->
  Image_open (content response) = None ->
  generate_image prompt model_id api_token num_steps guidance_scale w
    = (Raised UnidentifiedImageError, w') /\
  (forall p : pyresult,
     fst (generate_image prompt model_id api_token num_steps guidance_scale w)
       <> Returned p).
Proof.
  intros Hpost Hstatus Hopen.
  assert (E : generate_image prompt model_id api_token num_steps
                guidance_scale w = (Raised UnidentifiedImageError, w')).
  { rewrite generate_image_eq, Hpost, Hstatus, Hopen. reflexivity. }
  split; [exact E | intros p; rewrite E; discriminate].
Qed.

(** Whatever [generate_image] returns has exactly one component set. *)
Lemma generate_image_returns_one
    prompt model_id api_token num_steps guidance_scale w p w' :
  generate_image prompt model_id api_token num_steps guidance_scale w
    = (Returned p, w') ->
  exactly_one p.
Proof.
  rewrite generate_image_eq.
  destruct (requests_post _ _ _ w) as [[response|e] w1]; [|discriminate].
  destruct (status_code response =? 200)%Z.
  - destruct (Image_open (content response)); [|discriminate].
    intros [= <- _]. exact I.
  - destruct (PyStr.contains _ _); intros [= <- _]; exact I.
Qed.

(** C9, as the script has it.  Whenever [generate_image] returns, exactly
    one component of the pair is not [None]; and it does return on every
    response whose status is not 200 or whose body decodes: [(image, None)]
    with the decoded image on status 200, [(None, message)] on every other
    status. *)
Theorem generate_image_exactly_one
    prompt model_id api_token num_steps guidance_scale w :
  (forall p w',
     generate_image prompt model_id api_token num_steps guidance_scale w
       = (Returned p, w') ->
     exactly_one p) /\
  (forall response w',
     requests_post (api_url model_id) (authorization api_token)
                   (payload prompt num_steps guidance_scale) w
       = (Returned response, w') ->
     status_code response <> 200 \/ is_Some (Image_open (content response)) ->
     exists p,
       generate_image prompt model_id api_token num_steps guidance_scale w
         = (Returned p, w') /\
       exactly_one p /\
       (status_code response = 200 ->
        exists image,
          Image_open (content response) = Some image /\
          p = (Some image, None)) /\
       (status_code response <> 200 ->
        exists message, p = (None, Some message))).
Proof.
  split; [intros p w'; apply generate_image_returns_one|].
  intros response w' Hpost Hcase.
  rewrite generate_image_eq, Hpost.
  destruct (Z.eqb_spec (status_code response) 200) as [H200|H200].
  - destruct Hcase as [Hne|[image Himage]]; [contradiction|].
    rewrite Himage. exists (Some image, None).
    repeat split; [now exists image | contradiction].
  - destruct (PyStr.contains _ _); eexists; repeat split;
      try contradiction; intros _; eexists; reflexivity.
Qed.

(** The tag of the result depends on the status, on the text and on
    whether the body decodes, and on nothing else of the response. *)
Lemma generate_image_tag_of_class
    prompt model_id api_token num_steps guidance_scale w1 w2 :
  same_class
    (fst (requests_post (api_url model_id) (authorization api_token)
            (payload prompt num_steps guidance_scale) w1))
    (fst (requests_post (api_url model_id) (authorization api_token)
            (payload prompt num_steps guidance_scale) w2)) ->
  outcome_tag
    (fst (generate_image prompt model_id api_token num_steps guidance_scale
            w1)) =
  outcome_tag
    (fst (generate_image prompt model_id api_token num_steps guidance_scale
            w2)).
Proof.
  rewrite !generate_image_eq.
  destruct (requests_post _ _ _ w1) as [[r1|e1] w1'],
           (requests_post _ _ _ w2) as [[r2|e2] w2'];
    cbn [fst same_class]; try contradiction.
  - intros (Hs & Ht & Hd). rewrite Hs, Ht.
    destruct (status_code r2 =? 200)%Z.
    + destruct (Image_open (content r1)) as [i1|] eqn:E1,
               (Image_open (content r2)) as [i2|] eqn:E2; try reflexivity.
      * destruct (proj1 Hd) as [? [=]]. now eexists.
      * destruct (proj2 Hd) as [? [=]]. now eexists.
    + destruct (PyStr.contains _ _); reflexivity.
  - intros ->. reflexivity.
Qed.

Lemma same_class_refl (a : outcome Response) : same_class a a.
Proof. destruct a; cbn; [repeat split; tauto | reflexivity]. Qed.

(** An answer of the endpoint has one classification. *)
Lemma classified_functional (a : outcome Response) (t t' : outcome Tag) :
  classified a t -> classified a t' -> t = t'.
Proof.
  intros H H'. inversion H; subst; inversion H'; subst;
    try reflexivity; try congruence; contradiction.
Qed.

(** Answers classified alike have the same classification. *)
Lemma classified_same_class (a b : outcome Response) (t : outcome Tag) :
  same_class a b -> classified a t -> classified b t.
Proof.
  intros Hab Ha. destruct Ha as [ra image H200 Hopen | ra H200 Hopen
                                | ra H200 Hload | ra H200 Hload | e];
    destruct b as [rb|eb]; cbn [same_class] in Hab; try contradiction.
  - destruct Hab as (Hs & _ & Hd).
    destruct (proj1 Hd (ex_intro _ image Hopen)) as [image' Hopen'].
    apply classified_image with image'; congruence.
  - destruct Hab as (Hs & _ & Hd).
    apply classified_undecodable; [congruence|].
    destruct (Image_open (content rb)) as [image'|] eqn:Hopen';
      [|reflexivity].
    destruct (proj2 Hd (ex_intro _ image' eq_refl)) as [image Himage].
    congruence.
  - destruct Hab as (Hs & Ht & _).
    apply classified_retryable; congruence.
  - destruct Hab as (Hs & Ht & _).
    apply classified_fatal; congruence.
  - subst eb. apply classified_no_answer.
Qed.

(** A call ends as the classification of the answer says. *)
Lemma generate_image_classified
    prompt model_id api_token num_steps guidance_scale w :
  exists t : outcome Tag,
    classified
      (fst (requests_post (api_url model_id) (authorization api_token)
              (payload prompt num_steps guidance_scale) w)) t /\
    ends_with
      (fst (generate_image prompt model_id api_token num_steps
              guidance_scale w)) t.
Proof.
  rewrite generate_image_eq.
  destruct (requests_post _ _ _ w) as [[response|e] w']; cbn [fst].
  - destruct (Z.eqb_spec (status_code response) 200) as [H200|H200].
    + destruct (Image_open (content response)) as [image|] eqn:Hopen.
      * exists (Returned TagImage). split.
        -- now apply classified_image with image.
        -- eexists. split; reflexivity.
      * exists (Raised UnidentifiedImageError). split.
        -- now apply classified_undecodable.
        -- reflexivity.
    + destruct (PyStr.contains LOADING_NEEDLE (PyStr.lower (text response)))
        eqn:Hload.
      * exists (Returned TagRetryable). split.
        -- apply classified_retryable; [exact H200|].
           now apply loading_test_spec.
        -- eexists. split; reflexivity.
      * exists (Returned TagFatal). split.
        -- apply classified_fatal; [exact H200|].
           rewrite <- loading_test_spec. congruence.
        -- eexists. split; reflexivity.
  - exists (Raised e). split; [apply classified_no_answer | reflexivity].
Qed.

Lemma ends_with_tag (o : outcome pyresult) (t : outcome Tag) :
  ends_with o t ->
  outcome_tag o =
  match t with
  | Returned tag => Returned (Some tag)
  | Raised e => Raised e
  end.
Proof.
  destruct t as [tag|e]; cbn [ends_with].
  - intros (p & -> & Hp). cbn [outcome_tag]. now rewrite Hp.
  - now intros ->.
Qed.

(** A mock that answers by the request alone is deterministic up to the
    bytes of its images. *)
Lemma deterministic_mock_up_to_bytes :
  deterministic_mock -> deterministic_up_to_bytes.
Proof.
  intros Hdet url auth body w1 w2.
  rewrite (Hdet url auth body w1 w2). apply same_class_refl.
Qed.

(** C8, as the script has it.  Against a mock of the endpoint that is
    deterministic up to the bytes of its images, two calls with the same
    arguments, one after the other, end alike, as the answer of the mock is
    classified: both return a result with the same tag, the tag of that
    classification, whenever the answer is a response whose status is not
    200 or whose body decodes; otherwise both raise the same exception and
    return no result. *)
Theorem generate_image_tags_agree
    prompt model_id api_token num_steps guidance_scale w :
  deterministic_up_to_bytes ->
  let answer :=
    fst (requests_post (api_url model_id) (authorization api_token)
           (payload prompt num_steps guidance_scale) w) in
  let first :=
    generate_image prompt model_id api_token num_steps guidance_scale w in
  let second :=
    generate_image prompt model_id api_token num_steps guidance_scale
                   (snd first) in
  exists t : outcome Tag,
    classified answer t /\
    ends_with (fst first) t /\
    ends_with (fst second) t /\
    outcome_tag (fst first) = outcome_tag (fst second) /\
    (forall response,
       answer = Returned response ->
       status_code response <> 200 \/
       is_Some (Image_open (content response)) ->
       exists tag, t = Returned tag).
Proof.
  intros Hdet answer first second.
  destruct (generate_image_classified prompt model_id api_token num_steps
              guidance_scale w) as (t & Hclass & Hfirst).
  destruct (generate_image_classified prompt model_id api_token num_steps
              guidance_scale (snd first)) as (t2 & Hclass2 & Hsecond).
  assert (Ht : t2 = t).
  { apply classified_functional with (1 := Hclass2).
    apply classified_same_class with (2 := Hclass). apply Hdet. }
  subst t2. exists t. fold answer in Hclass. fold first in Hfirst.
  fold second in Hsecond.
  repeat apply conj; try assumption.
  - now rewrite (ends_with_tag _ _ Hfirst), (ends_with_tag _ _ Hsecond).
  - intros response Hanswer Hcase. rewrite Hanswer in Hclass.
    inversion Hclass; subst; eauto.
    destruct Hcase as [Hne | [image Himage]]; [contradiction | congruence].
Qed.

End DispatcherFacts.

(** ** The clock *)

Module ClockFacts.

Lemma digit_is_digit (n : Z) : is_digit (digit n) = true.
Proof.
  unfold digit. pose proof (Z.mod_pos_bound n 10 eq_refl) as Hb.
  assert (H : n mod 10 = 0 \/ n mod 10 = 1 \/ n mod 10 = 2 \/ n mod 10 = 3 \/
              n mod 10 = 4 \/ n mod 10 = 5 \/ n mod 10 = 6 \/ n mod 10 = 7 \/
              n mod 10 = 8 \/ n mod 10 = 9) by lia.
  repeat (destruct H as [-> | H]; [reflexivity|]). now rewrite H.
Qed.

(** The stamp has fifteen characters: eight digits, an underscore, six
    digits. *)
Lemma strftime_shape (d : datetime) :
  String.length (strftime_Ymd_HMS d) = 15%nat /\
  String.get 8 (strftime_Ymd_HMS d) = Some "_"%char /\
  (forall i c,
     String.get i (strftime_Ymd_HMS d) = Some c -> i <> 8%nat ->
     is_digit c = true).
Proof.
  destruct d as [y mo dd h mi sec]. repeat split.
  intros i c.
  do 15 (destruct i as [|i];
         [cbn; intros [= <-] Hi; try apply digit_is_digit; congruence|]).
  cbn. discriminate.
Qed.

(** All the whole numbers from [0] up to [n], checked one by one. *)
Lemma below_checked (check : Z -> bool) (n : nat) :
  forallb check (map Z.of_nat (seq 0 n)) = true ->
  forall z, 0 <= z < Z.of_nat n -> check z = true.
Proof.
  intros H z Hz. rewrite forallb_forall in H. apply H.
  rewrite <- (Z2Nat.id z) by lia.
  apply in_map, in_seq. lia.
Qed.

(** On a number that fills the field the padded form is the number in
    decimal, as [str] prints it. *)
Lemma four_digits_decimal (n : Z) :
  1000 <= n <= 9999 -> four_digits n = PyStr.of_int n.
Proof.
  intros Hn.
  apply String.eqb_eq.
  assert (H : (n <? 1000)%Z
              || String.eqb (four_digits n) (PyStr.of_int n) = true).
  { apply (below_checked
             (fun z => (z <? 1000)%Z
                       || String.eqb (four_digits z) (PyStr.of_int z))
             (Z.to_nat 10000)).
    - vm_compute. reflexivity.
    - lia. }
  destruct (Z.ltb_spec n 1000); [lia | exact H].
Qed.

Lemma two_digits_decimal (n : Z) :
  0 <= n <= 99 ->
  two_digits n =
  if (n <? 10)%Z then "0" +:+ PyStr.of_int n else PyStr.of_int n.
Proof.
  intros Hn.
  apply String.eqb_eq.
  apply (below_checked
           (fun z => String.eqb (two_digits z)
                       (if (z <? 10)%Z then "0" +:+ PyStr.of_int z
                        else PyStr.of_int z))
           100) with (z := n).
  - vm_compute. reflexivity.
  - lia.
Qed.

End ClockFacts.

(** ** The page and the session *)

Section PageFacts.

Context `{RT : Runtime}.

Implicit Types (inp : Inputs) (ss : gmap string pyval) (w : World).

Lemma holding_image (img : Image) (p : string) :
  holding img p !! "last_image" = Some (PImage img).
Proof. unfold holding. by simplify_map_eq. Qed.

Lemma holding_prompt (img : Image) (p : string) :
  holding img p !! "last_prompt" = Some (PStr p).
Proof. unfold holding. by simplify_map_eq. Qed.

Lemma holding_dom (img : Image) (p : string) :
  dom (holding img p) = ({["last_image"; "last_prompt"]} : gset string).
Proof. unfold holding. rewrite !dom_insert_L. set_solver. Qed.

(** Storing a new image over a session of the expected shape leaves
    exactly the new image. *)
Lemma store_over ss (img : Image) (p : string) :
  at_most_one_result ss ->
  <["last_prompt" := PStr p]> (<["last_image" := PImage img]> ss)
    = holding img p.
Proof.
  intros [-> | (img0 & p0 & ->)]; [reflexivity|].
  unfold holding. apply map_eq. intros k.
  rewrite !lookup_insert. repeat case_decide; reflexivity.
Qed.

Lemma clear_holding (img : Image) (p : string) :
  delete "last_prompt" (delete "last_image" (holding img p))
    = (∅ : gmap string pyval).
Proof.
  unfold holding. apply map_eq. intros k.
  rewrite !lookup_delete, !lookup_insert, lookup_empty.
  repeat case_decide; reflexivity.
Qed.

Lemma display_block_world inp ss w : world_after (display_block inp ss w) = w.
Proof.
  unfold display_block.
  repeat (match goal with |- context [match ?x with _ => _ end] =>
            destruct x end); reflexivity.
Qed.

(** Without a click on Create New Image the display leaves the session as
    it is. *)
Lemma display_block_keeps inp ss w :
  create_new_clicked inp = false ->
  session_after (display_block inp ss w) = ss.
Proof.
  intros Hc. unfold display_block. rewrite Hc.
  repeat (match goal with |- context [match ?x with _ => _ end] =>
            destruct x end); reflexivity.
Qed.

Lemma script_session inp ss w :
  session_after (script inp ss w) =
  match end_of_run (generate_block inp ss w) with
  | Finished =>
      session_after
        (display_block inp (session_after (generate_block inp ss w))
                       (world_after (generate_block inp ss w)))
  | _ => session_after (generate_block inp ss w)
  end.
Proof.
  unfold script. destruct (end_of_run (generate_block inp ss w)); try reflexivity.
  destruct (end_of_run (display_block _ _ _)); reflexivity.
Qed.

Lemma script_world inp ss w :
  world_after (script inp ss w) = world_after (generate_block inp ss w).
Proof.
  unfold script. destruct (end_of_run (generate_block inp ss w)); try reflexivity.
  destruct (end_of_run (display_block _ _ _)); cbn [world_after];
    apply display_block_world.
Qed.

(** The session after the Generate block: unchanged, unless the call
    returned an image, which is then stored with the prompt. *)
Lemma generate_block_session inp ss w :
  session_after (generate_block inp ss w) =
  if generate_clicked inp && PyStr.truthy (api_token inp)
     && PyStr.truthy (prompt inp)
  then
    match fst (generate_image (prompt inp) (model_name (model_id inp))
                 (api_token inp) (num_steps inp) (guidance_scale inp) w) with
    | Returned (Some img, _) =>
        <["last_prompt" := PStr (prompt inp)]>
          (<["last_image" := PImage img]> ss)
    | _ => ss
    end
  else ss.
Proof.
  unfold generate_block.
  destruct (generate_clicked inp); [|reflexivity].
  destruct (PyStr.truthy (api_token inp)); [|reflexivity].
  destruct (PyStr.truthy (prompt inp)); [|reflexivity].
  cbn [andb negb].
  destruct (generate_image _ _ _ _ _ w) as [[[[img|] [m|]]|e] w'];
    cbn [fst]; try reflexivity.
  destruct (PyStr.truthy m); reflexivity.
Qed.

Lemma generate_block_shape inp ss w :
  at_most_one_result ss ->
  at_most_one_result (session_after (generate_block inp ss w)).
Proof.
  intros Hss. rewrite generate_block_session.
  destruct (_ && _); [|exact Hss].
  destruct (fst _) as [[[img|] ?]|]; try exact Hss.
  right. exists img, (prompt inp). now apply store_over.
Qed.

Lemma display_block_shape inp ss w :
  at_most_one_result ss ->
  at_most_one_result (session_after (display_block inp ss w)).
Proof.
  intros Hss. destruct (create_new_clicked inp) eqn:Hc.
  - destruct Hss as [-> | (img & p & ->)].
    + left. reflexivity.
    + unfold display_block.
      rewrite holding_image, holding_prompt, Hc.
      destruct (st_image img); [right; now exists img, p|].
      destruct (Image_save_png img); cbn [session_after].
      * left. apply clear_holding.
      * right. now exists img, p.
  - now rewrite display_block_keeps.
Qed.

Lemma script_shape inp ss w :
  at_most_one_result ss ->
  at_most_one_result (session_after (script inp ss w)).
Proof.
  intros Hss. rewrite script_session.
  destruct (end_of_run (generate_block inp ss w));
    try now apply generate_block_shape.
  now apply display_block_shape, generate_block_shape.
Qed.

(** Every session that the script can produce holds nothing or exactly one
    image with its prompt. *)
Lemma reachable_session_shape ss : reachable ss -> at_most_one_result ss.
Proof.
  induction 1 as [|inp ss w _ IH]; [now left | now apply script_shape].
Qed.

(** *** Calls of the dispatcher *)

Lemma dispatched_app (a b : list event) :
  dispatched (a ++ b) = (dispatched a ++ dispatched b)%list.
Proof.
  induction a as [|e a IH]; [reflexivity|].
  destruct e; cbn [dispatched app]; now rewrite ?IH.
Qed.

Lemma display_block_dispatched inp ss w :
  dispatched (trace (display_block inp ss w)) = [].
Proof.
  unfold display_block.
  repeat (match goal with |- context [match ?x with _ => _ end] =>
            destruct x end); reflexivity.
Qed.

Lemma tips_block_dispatched ss : dispatched (tips_block ss) = [].
Proof. unfold tips_block. destruct (ss !! "last_image"); reflexivity. Qed.

Lemma script_dispatched_block inp ss w :
  dispatched (trace (script inp ss w))
    = dispatched (trace (generate_block inp ss w)).
Proof.
  unfold script. destruct (end_of_run (generate_block inp ss w)); try reflexivity.
  destruct (end_of_run (display_block _ _ _)); cbn [trace];
    rewrite !dispatched_app, ?display_block_dispatched,
      ?tips_block_dispatched, ?app_nil_r; reflexivity.
Qed.

(** The calls of [generate_image] in one run: one, with the prompt and the
    token of the page, when the button was clicked and both are filled in;
    none otherwise. *)
Lemma script_dispatched inp ss w :
  dispatched (trace (script inp ss w)) =
  if generate_clicked inp && PyStr.truthy (api_token inp)
     && PyStr.truthy (prompt inp)
  then [(prompt inp, api_token inp)] else [].
Proof.
  rewrite script_dispatched_block. unfold generate_block.
  destruct (generate_clicked inp); [|reflexivity].
  destruct (PyStr.truthy (api_token inp)); [|reflexivity].
  destruct (PyStr.truthy (prompt inp)); [|reflexivity].
  cbn [andb negb].
  destruct (generate_image _ _ _ _ _ w) as [[[[img|] [m|]]|e] w'];
    try reflexivity.
  destruct (PyStr.truthy m); reflexivity.
Qed.

Lemma truthy_nonempty (s : string) :
  PyStr.truthy s = true <-> s <> EmptyString.
Proof. destruct s; cbn; split; congruence. Qed.

(** Without a call of the dispatcher the world outside is not touched. *)
Lemma script_world_untouched inp ss w :
  generate_clicked inp && PyStr.truthy (api_token inp)
    && PyStr.truthy (prompt inp) = false ->
  world_after (script inp ss w) = w.
Proof.
  rewrite script_world. unfold generate_block.
  destruct (generate_clicked inp); [|reflexivity].
  destruct (PyStr.truthy (api_token inp)); [|reflexivity].
  destruct (PyStr.truthy (prompt inp)); [discriminate|reflexivity].
Qed.

Lemma script_trace_block inp ss w (e : event) :
  In e (trace (generate_block inp ss w)) -> In e (trace (script inp ss w)).
Proof.
  unfold script. destruct (end_of_run (generate_block inp ss w)); try easy.
  destruct (end_of_run (display_block _ _ _)); cbn [trace];
    intros H; apply in_or_app; now left.
Qed.

(** C5. A run never calls [generate_image] with an empty prompt or an
    empty token; when either is empty the run makes no call at all, leaves
    the world outside untouched and, if the button was clicked, shows an
    error message on the page instead. *)
Theorem script_rejects_missing_input inp ss w :
  (forall p tok,
     In (p, tok) (dispatched (trace (script inp ss w))) ->
     p <> EmptyString /\ tok <> EmptyString) /\
  (prompt inp = EmptyString \/ api_token inp = EmptyString ->
   dispatched (trace (script inp ss w)) = [] /\
   world_after (script inp ss w) = w /\
   (generate_clicked inp = true ->
    exists message, In (EvError message) (trace (script inp ss w)))).
Proof.
  split.
  - intros p tok. rewrite script_dispatched.
    destruct (generate_clicked inp); cbn [andb]; [|intros []].
    destruct (PyStr.truthy (api_token inp)) eqn:Ht; cbn [andb]; [|intros []].
    destruct (PyStr.truthy (prompt inp)) eqn:Hp; [|intros []].
    intros [[= <- <-]|[]]. now rewrite <- !truthy_nonempty.
  - intros Hempty.
    assert (Hno : generate_clicked inp && PyStr.truthy (api_token inp)
                    && PyStr.truthy (prompt inp) = false).
    { destruct Hempty as [-> | ->]; cbn;
        [apply andb_false_r | rewrite andb_false_r; reflexivity]. }
    repeat split.
    + rewrite script_dispatched, Hno. reflexivity.
    + now apply script_world_untouched.
    + intros Hclick.
      assert (Hb : exists message,
                 In (EvError message) (trace (generate_block inp ss w))).
      { unfold generate_block. rewrite Hclick.
        destruct (PyStr.truthy (api_token inp)) eqn:Ht; cbn [negb].
        - destruct (PyStr.truthy (prompt inp)) eqn:Hp; cbn [negb].
          + rewrite Hclick in Hno. discriminate.
          + eexists. now left.
        - eexists. now left. }
      destruct Hb as [message Hb]. exists message.
      now apply script_trace_block.
Qed.

(** *** The session across runs *)

(** A call that returns no image leaves the session as it was. *)
Lemma generate_block_keeps inp ss w (error : option string) w' :
  generate_image (prompt inp) (model_name (model_id inp)) (api_token inp)
                 (num_steps inp) (guidance_scale inp) w
    = (Returned (None, error), w') ->
  session_after (generate_block inp ss w) = ss.
Proof.
  intros H. rewrite generate_block_session, H. cbn [fst].
  now destruct (_ && _).
Qed.

(** A call that returns an image ends the Generate block normally, with
    the image stored. *)
Lemma generate_block_stores inp ss w (img : Image) (error : option string) w' :
  request_starts inp ->
  generate_image (prompt inp) (model_name (model_id inp)) (api_token inp)
                 (num_steps inp) (guidance_scale inp) w
    = (Returned (Some img, error), w') ->
  session_after (generate_block inp ss w)
    = <["last_prompt" := PStr (prompt inp)]>
        (<["last_image" := PImage img]> ss).
Proof.
  intros (Hc & Ht & Hp) H.
  rewrite generate_block_session, H, Hc, Ht, Hp. reflexivity.
Qed.

Lemma script_keeps_after_block inp ss w :
  create_new_clicked inp = false ->
  session_after (script inp ss w) = session_after (generate_block inp ss w).
Proof.
  intros Hc. rewrite script_session.
  destruct (end_of_run (generate_block inp ss w)); try reflexivity.
  now apply display_block_keeps.
Qed.

(** A call that raises ends the run there: nothing is stored, nothing
    more is drawn. *)
Lemma script_raised inp ss w (e : exn) w' :
  request_starts inp ->
  generate_image (prompt inp) (model_name (model_id inp)) (api_token inp)
                 (num_steps inp) (guidance_scale inp) w
    = (Raised e, w') ->
  session_after (script inp ss w) = ss /\
  end_of_run (script inp ss w) = Uncaught e /\
  download_names (trace (script inp ss w)) = [].
Proof.
  intros (Hc & Ht & Hp) H. unfold script, generate_block.
  rewrite Hc, Ht, Hp, H. repeat split.
Qed.

(** C10. When the call of [generate_image] of a run returns an error, that
    is a pair without image, the session after the Generate block is the
    session before it, and so is the session after the whole run unless
    Create New Image was clicked in the same run; and in every session that
    the script can produce [last_image] and [last_prompt] are both present
    or both absent. *)
Theorem error_result_keeps_session inp ss w (error : option string) w' :
  request_starts inp ->
  generate_image (prompt inp) (model_name (model_id inp)) (api_token inp)
                 (num_steps inp) (guidance_scale inp) w
    = (Returned (None, error), w') ->
  session_after (generate_block inp ss w) = ss /\
  (create_new_clicked inp = false -> session_after (script inp ss w) = ss) /\
  (forall s : gmap string pyval,
     reachable s ->
     is_Some (s !! "last_image") <-> is_Some (s !! "last_prompt")).
Proof.
  intros _ H. split; [|split].
  - now apply generate_block_keeps with error w'.
  - intros Hc. rewrite script_keeps_after_block by exact Hc.
    now apply generate_block_keeps with error w'.
  - intros s Hs. apply reachable_session_shape in Hs.
    destruct Hs as [-> | (img & p & ->)].
    + rewrite !lookup_empty. split; intros [? [=]].
    + rewrite holding_image, holding_prompt. split; eauto.
Qed.

(** C6, as the script has it.  Every session that the script can produce
    holds nothing or exactly one image with its prompt, under the two names
    [last_image] and [last_prompt] and no other.  A request that succeeds
    replaces the held image by the new one.  A click on Create New Image,
    with no request in the same run and on a page that reaches the button
    (the image was drawn and saved), empties the session.  A request that
    returns an error leaves the held image in place. *)
Theorem session_holds_one_result :
  (forall ss,
     reachable ss ->
     at_most_one_result ss /\
     dom ss ⊆ ({["last_image"; "last_prompt"]} : gset string)) /\
  (forall inp ss w (img : Image) w',
     reachable ss ->
     request_starts inp ->
     generate_image (prompt inp) (model_name (model_id inp)) (api_token inp)
                    (num_steps inp) (guidance_scale inp) w
       = (Returned (Some img, None), w') ->
     session_after (generate_block inp ss w) = holding img (prompt inp) /\
     (create_new_clicked inp = false ->
      session_after (script inp ss w) = holding img (prompt inp))) /\
  (forall inp w (img : Image) (p : string),
     generate_clicked inp = false ->
     create_new_clicked inp = true ->
     st_image img = None ->
     is_Some (Image_save_png img) ->
     session_after (script inp (holding img p) w) = ∅ /\
     end_of_run (script inp (holding img p) w) = RerunRequested) /\
  (forall inp ss w (error : option string) w',
     request_starts inp ->
     generate_image (prompt inp) (model_name (model_id inp)) (api_token inp)
                    (num_steps inp) (guidance_scale inp) w
       = (Returned (None, error), w') ->
     create_new_clicked inp = false ->
     session_after (script inp ss w) = ss).
Proof.
  repeat apply conj.
  - intros ss Hss. apply reachable_session_shape in Hss. split; [exact Hss|].
    destruct Hss as [-> | (img & p & ->)].
    + rewrite dom_empty_L. set_solver.
    + now rewrite holding_dom.
  - intros inp ss w img w' Hss Hreq H.
    apply reachable_session_shape in Hss.
    assert (E : session_after (generate_block inp ss w)
                  = holding img (prompt inp)).
    { rewrite (generate_block_stores inp ss w img None w' Hreq H).
      now apply store_over. }
    split; [exact E|]. intros Hc.
    now rewrite script_keeps_after_block.
  - intros inp w img p Hg Hc Hdraw [data Hsave].
    unfold script, generate_block. rewrite Hg. cbn [end_of_run session_after].
    unfold display_block.
    rewrite holding_image, holding_prompt, Hdraw, Hsave, Hc.
    cbn [end_of_run session_after world_after]. split; [|reflexivity].
    apply clear_holding.
  - intros inp ss w error w' _ H Hc.
    rewrite script_keeps_after_block by exact Hc.
    now apply generate_block_keeps with error w'.
Qed.

(** *** The download *)

Lemma script_trace_parts inp ss w (e : event) :
  In e (trace (script inp ss w)) ->
  In e (trace (generate_block inp ss w)) \/
  In e (trace (display_block inp (session_after (generate_block inp ss w))
                 (world_after (generate_block inp ss w)))) \/
  e = EvTips.
Proof.
  unfold script. destruct (end_of_run (generate_block inp ss w)); try tauto.
  destruct (end_of_run (display_block _ _ _)); cbn [trace];
    rewrite ?in_app_iff; try tauto.
  unfold tips_block. destruct (_ !! _); cbn [In]; intuition congruence.
Qed.

Lemma generate_block_no_download inp ss w data name mime :
  ~ In (EvDownload data name mime) (trace (generate_block inp ss w)).
Proof.
  unfold generate_block.
  repeat (match goal with |- context [match ?x with _ => _ end] =>
            destruct x end);
    cbn [trace In]; intros H; decompose [or] H; discriminate || contradiction.
Qed.

Lemma display_block_download inp ss w data name mime :
  In (EvDownload data name mime) (trace (display_block inp ss w)) ->
  name = download_file_name (now inp) /\ mime = "image/png" /\
  exists img,
    ss !! "last_image" = Some (PImage img) /\ Image_save_png img = Some data.
Proof.
  unfold display_block.
  destruct (ss !! "last_image") as [[img|s]|]; cbn [trace In]; try tauto;
    destruct (ss !! "last_prompt") as [[img'|caption]|]; cbn [trace In];
    try (intros H; decompose [or] H; discriminate || contradiction).
  destruct (st_image img) as [e|];
    [cbn [trace In]; intros H; decompose [or] H;
     discriminate || contradiction|].
  destruct (Image_save_png img) as [byte_im|] eqn:Hsave.
  - destruct (create_new_clicked inp); cbn [trace In];
      intros H; decompose [or] H; try discriminate; try contradiction;
      match goal with E : EvDownload _ _ _ = _ |- _ =>
        injection E as <- <- <- end;
      eauto.
  - cbn [trace In]. intros H; decompose [or] H; discriminate || contradiction.
Qed.

(** C7, as the script has it.  Whenever a run offers a download, the data
    is the held image saved as PNG, the type is [image/png] and the name
    is [ai_image_], the reading of the clock in that same run stamped as
    eight digits, an underscore and six digits, and [.png]. *)
Theorem download_named_by_clock inp ss w data name mime :
  In (EvDownload data name mime) (trace (script inp ss w)) ->
  name = "ai_image_" +:+ strftime_Ymd_HMS (now inp) +:+ ".png" /\
  mime = "image/png" /\
  (exists img,
     session_after (generate_block inp ss w) !! "last_image"
       = Some (PImage img) /\
     Image_save_png img = Some data) /\
  String.length (strftime_Ymd_HMS (now inp)) = 15%nat /\
  String.get 8 (strftime_Ymd_HMS (now inp)) = Some "_"%char /\
  (forall i c,
     String.get i (strftime_Ymd_HMS (now inp)) = Some c -> i <> 8%nat ->
     is_digit c = true).
Proof.
  intros H. apply script_trace_parts in H as [H | [H | H]].
  - now apply generate_block_no_download in H.
  - apply display_block_download in H as (-> & -> & Himg).
    repeat split; try exact Himg; apply ClockFacts.strftime_shape.
  - discriminate.
Qed.

End PageFacts.

(** ** Concrete runs against the scripted endpoint *)

Module MockFacts.
Import Mock.

(** The scripted endpoint answers by the request alone. *)
Lemma mock_deterministic : @deterministic_mock runtime.
Proof. intros url auth body w1 w2. reflexivity. Qed.

(** Status 200 with a PNG body: the image of that body, no error. *)
Lemma generate_image_success_witness :
  @generate_image runtime "a red ball" sd21 "hf_demo" 50 seven_and_a_half 0%nat
    = (Returned (@to_pair runtime (@ImageResult runtime red_ball)), 1%nat) /\
  @to_pair runtime (@ImageResult runtime red_ball) = (Some red_ball, None).
Proof.
  apply (@generate_image_success runtime "a red ball" sd21 "hf_demo" 50
           seven_and_a_half 0%nat
           (mkResponse 200 red_ball_png EmptyString) 1%nat red_ball);
    reflexivity.
Defined.


(** Status 500 with an unrelated body: the status and the body, as they
    are, in the message. *)
Lemma generate_image_fatal_witness :
  fst (@generate_image runtime "a green cone" sd21 "hf_demo" 50
         seven_and_a_half 0%nat)
    = Returned (@to_pair runtime (@FatalError runtime 500 "Internal Server Error")) /\
  @to_pair runtime (@FatalError runtime 500 "Internal Server Error")
    = (None, Some ("Error: 500" +:+ newline +:+ "Internal Server Error")).
Proof.
  destruct (@generate_image_fatal runtime "a green cone" sd21 "hf_demo" 50
              seven_and_a_half 0%nat
              (mkResponse 500 [] "Internal Server Error") 1%nat)
    as (Hcall & Hpair & _).
  - reflexivity.
  - discriminate.
  - rewrite <- loading_test_spec. discriminate.
  - split; [now rewrite Hcall | exact Hpair].
Defined.

(** C4, against the claim.  The endpoint answers 200 with a body that is
    no image; [generate_image] raises and returns no fatal error. *)
Lemma undecodable_body_raises :
  let out :=
    @generate_image runtime "not an image" sd21 "hf_demo" 50
                    seven_and_a_half 0%nat in
  fst (@requests_post runtime (api_url sd21) (authorization "hf_demo")
         (payload "not an image" 50 seven_and_a_half) 0%nat)
    = Returned (mkResponse 200 [x7b; x7d] "{}") /\
  @Image_open runtime [x7b; x7d] = None /\
  fst out = Raised UnidentifiedImageError /\
  ~ (exists status body,
       fst out = Returned (@to_pair runtime (@FatalError runtime status body))).
Proof.
  repeat split. intros (status & body & H). discriminate H.
Qed.

Lemma generate_image_undecodable_witness :
  @generate_image runtime "not an image" sd21 "hf_demo" 50 seven_and_a_half
                  0%nat
    = (Raised UnidentifiedImageError, 1%nat).
Proof.
  apply (@generate_image_undecodable runtime "not an image" sd21 "hf_demo" 50
           seven_and_a_half 0%nat (mkResponse 200 [x7b; x7d] "{}") 1%nat);
    reflexivity.
Defined.

(** C9, against the claim.  The endpoint answers with an HTTP response,
    status 200, and [generate_image] returns no pair at all. *)
Lemma undecodable_body_returns_no_pair :
  exists response : Response,
    fst (@requests_post runtime (api_url sd21) (authorization "hf_demo")
           (payload "not an image" 50 seven_and_a_half) 0%nat)
      = Returned response /\
    forall p : @pyresult runtime,
      fst (@generate_image runtime "not an image" sd21 "hf_demo" 50
             seven_and_a_half 0%nat) <> Returned p.
Proof.
  exists (mkResponse 200 [x7b; x7d] "{}"). split; [reflexivity|].
  intros p H. discriminate H.
Qed.

Lemma generate_image_exactly_one_witness :
  exists p : @pyresult runtime,
    @generate_image runtime "a green cone" sd21 "hf_demo" 50 seven_and_a_half
                    0%nat = (Returned p, 1%nat) /\
    exactly_one p.
Proof.
  destruct (proj2 (@generate_image_exactly_one runtime "a green cone" sd21
                     "hf_demo" 50 seven_and_a_half 0%nat)
              (mkResponse 500 [] "Internal Server Error") 1%nat)
    as (p & Hp & Hone & _).
  - reflexivity.
  - left. discriminate.
  - exists p. split; [exact Hp | exact Hone].
Defined.

(** C8, against the claim.  The scripted endpoint is deterministic and
    answers 200 with a body that is no image: neither of two calls in a
    row produces a result, so there are no two tags to compare. *)
Lemma deterministic_mock_without_result :
  let first :=
    @generate_image runtime "not an image" sd21 "hf_demo" 50
                    seven_and_a_half 0%nat in
  let second :=
    @generate_image runtime "not an image" sd21 "hf_demo" 50
                    seven_and_a_half (snd first) in
  @deterministic_mock runtime /\
  fst first = Raised UnidentifiedImageError /\
  fst second = Raised UnidentifiedImageError /\
  (forall p : @pyresult runtime, fst first <> Returned p) /\
  (forall p : @pyresult runtime, fst second <> Returned p).
Proof.
  split; [exact mock_deterministic|].
  repeat split; intros p H; discriminate H.
Qed.

(** The endpoint whose images differ from call to call is deterministic
    up to those bytes. *)
Lemma noisy_up_to_bytes : @deterministic_up_to_bytes noisy.
Proof.
  intros url auth body w1 w2. cbn.
  repeat split; intros _; eexists; reflexivity.
Qed.

(** Two calls in a row against that endpoint: both return an image. *)
Lemma generate_image_tags_agree_witness :
  exists t : outcome Tag,
    @classified noisy
      (fst (@requests_post noisy (api_url sd21) (authorization "hf_demo")
              (@payload noisy "a red ball" 50 seven_and_a_half) 0%nat)) t /\
    ends_with
      (fst (@generate_image noisy "a red ball" sd21 "hf_demo" 50
              seven_and_a_half 0%nat)) t /\
    ends_with
      (fst (@generate_image noisy "a red ball" sd21 "hf_demo" 50
              seven_and_a_half 1%nat)) t.
Proof.
  destruct (@generate_image_tags_agree noisy "a red ball" sd21 "hf_demo" 50
              seven_and_a_half 0%nat noisy_up_to_bytes)
    as (t & Hclass & Hfirst & Hsecond & _).
  exists t. split; [exact Hclass | split; [exact Hfirst | exact Hsecond]].
Defined.

(** Against an endpoint whose images differ from call to call the tags
    still agree, and the images do not. *)
Example same_tag_other_bytes :
  let first :=
    @generate_image noisy "a red ball" sd21 "hf_demo" 50 seven_and_a_half
                    0%nat in
  let second :=
    @generate_image noisy "a red ball" sd21 "hf_demo" 50 seven_and_a_half
                    (snd first) in
  outcome_tag (fst first) = outcome_tag (fst second) /\
  fst first <> fst second.
Proof.
  split.
  - apply (@generate_image_tag_of_class noisy).
    cbn. repeat split; intros _; eexists; reflexivity.
  - discriminate.
Qed.

(** *** Runs of the page *)

Lemma first_run_session :
  session_after first_run = @holding runtime red_ball "a red ball".
Proof. reflexivity. Qed.

Lemma first_run_reachable : reachable (session_after first_run).
Proof. apply reachable_run, reachable_empty. Qed.

(** Generate clicked with no token: no call, the world untouched, an error
    on the page. *)
Lemma script_rejects_missing_input_witness :
  dispatched (trace (@script runtime (ask EmptyString "a red ball" noon) ∅
                       0%nat)) = [] /\
  world_after (@script runtime (ask EmptyString "a red ball" noon) ∅ 0%nat)
    = 0%nat /\
  exists message,
    In (EvError message)
       (trace (@script runtime (ask EmptyString "a red ball" noon) ∅ 0%nat)).
Proof.
  destruct (proj2 (@script_rejects_missing_input runtime
                     (ask EmptyString "a red ball" noon) ∅ 0%nat))
    as (Hnone & Hworld & Herror).
  - right. reflexivity.
  - split; [exact Hnone | split; [exact Hworld | apply Herror; reflexivity]].
Defined.

(** C6, against the claim.  With the red ball held, a new request starts,
    is dispatched and fails with status 500: the red ball and its prompt
    are still held after the run. *)
Lemma failed_request_keeps_held_image :
  let second :=
    @script runtime (ask "hf_demo" "a green cone" later)
            (session_after first_run) (world_after first_run) in
  session_after first_run !! "last_image" = Some (@PImage runtime red_ball) /\
  dispatched (trace second) = [("a green cone", "hf_demo")] /\
  In (EvError ("Error: 500" +:+ newline +:+ "Internal Server Error"))
     (trace second) /\
  session_after second !! "last_image" = Some (@PImage runtime red_ball) /\
  session_after second !! "last_prompt" = Some (@PStr runtime "a red ball").
Proof.
  repeat split. right. left. reflexivity.
Qed.

(** A second request that succeeds replaces the red ball by the new
    image. *)
Lemma session_holds_one_result_witness :
  session_after
    (@script runtime (ask "hf_demo" "a blue cube" later)
             (session_after first_run) (world_after first_run))
    = @holding runtime [x09] "a blue cube".
Proof.
  apply (proj1 (proj2 (@session_holds_one_result runtime))
           (ask "hf_demo" "a blue cube" later) (session_after first_run)
           (world_after first_run) [x09] 2%nat).
  - exact first_run_reachable.
  - repeat split.
  - reflexivity.
  - reflexivity.
Defined.

(** C7, against the claim.  The red ball is generated in the run whose
    clock reads 12:00:05.  The page is redrawn at 12:07:41 with no
    request: the same image is offered under a name stamped 12:07:41, not
    under the name of the time of generation. *)
Lemma download_name_changes_on_redraw :
  let second :=
    @script runtime (redraw "hf_demo" "a red ball" later)
            (session_after first_run) (world_after first_run) in
  dispatched (trace first_run) = [("a red ball", "hf_demo")] /\
  download_names (trace first_run) = ["ai_image_20240309_120005.png"] /\
  dispatched (trace second) = [] /\
  session_after second !! "last_image" = Some (@PImage runtime red_ball) /\
  download_names (trace second) = ["ai_image_20240309_120741.png"] /\
  download_names (trace second) <> [download_file_name noon].
Proof.
  repeat split. discriminate.
Qed.

Lemma download_named_by_clock_witness :
  "ai_image_20240309_120741.png"
    = "ai_image_" +:+ strftime_Ymd_HMS later +:+ ".png".
Proof.
  apply (@download_named_by_clock runtime
           (redraw "hf_demo" "a red ball" later)
           (session_after first_run) (world_after first_run)
           red_ball_png "ai_image_20240309_120741.png" "image/png").
  right. right. left. reflexivity.
Defined.

(** With the red ball held, a request that meets a model still loading
    leaves the session as it was. *)
Lemma error_result_keeps_session_witness :
  session_after
    (@generate_block runtime (ask "hf_demo" "cold start" later)
       (session_after first_run) (world_after first_run))
    = session_after first_run /\
  session_after
    (@script runtime (ask "hf_demo" "cold start" later)
       (session_after first_run) (world_after first_run))
    = session_after first_run.
Proof.
  destruct (@error_result_keeps_session runtime
              (ask "hf_demo" "cold start" later) (session_after first_run)
              (world_after first_run) (Some LOADING_MESSAGE) 2%nat)
    as (Hblock & Hrun & _).
  - repeat split.
  - reflexivity.
  - split; [exact Hblock | apply Hrun; reflexivity].
Defined.

End MockFacts.

(** * Further properties of the dispatcher *)

Section DispatcherMore.

Context `{RT : Runtime}.

Implicit Types (prompt model_id api_token : string) (num_steps : Z).
Implicit Types (guidance_scale : pyfloat) (w : World) (response : Response).

Lemma tag_of_retryable :
  tag_of (to_pair (RetryableError LOADING_MESSAGE)) = Some TagRetryable.
Proof. reflexivity. Qed.

(** X1. For every answer of the endpoint the tag of the result tells how
    the answer was classified, and nothing else leads to that tag: an image
    exactly on status 200 with a body that decodes, the retryable error
    exactly on another status whose text holds the phrase with case
    ignored, the fatal error exactly on another status without the phrase,
    and the exception of the decoder exactly on status 200 with a body
    that does not decode. *)
Theorem tag_characterises_response
    prompt model_id api_token num_steps guidance_scale w response w' :
  requests_post (api_url model_id) (authorization api_token)
                (payload prompt num_steps guidance_scale) w
    = (Returned response, w') ->
  let out :=
    outcome_tag
      (fst (generate_image prompt model_id api_token num_steps
              guidance_scale w)) in
  (out = Returned (Some TagImage) <->
   status_code response = 200 /\ is_Some (Image_open (content response))) /\
  (out = Returned (Some TagRetryable) <->
   status_code response <> 200 /\
   PyStr.contains_nocase LOADING_NEEDLE (text response)) /\
  (out = Returned (Some TagFatal) <->
   status_code response <> 200 /\
   ~ PyStr.contains_nocase LOADING_NEEDLE (text response)) /\
  (out = Raised UnidentifiedImageError <->
   status_code response = 200 /\ Image_open (content response) = None).
Proof.
  intros Hpost out. subst out.
  rewrite generate_image_eq, Hpost, <- loading_test_spec.
  destruct (Z.eqb_spec (status_code response) 200) as [H200|H200].
  - destruct (Image_open (content response)) as [image|];
      cbn [fst outcome_tag]; rewrite ?tag_of_to_pair.
    + repeat split; try discriminate; try tauto; eauto.
      all: intros [_ H]; discriminate H.
    + repeat split; try discriminate; try tauto.
      intros [_ [? H]]. discriminate H.
  - destruct (PyStr.contains LOADING_NEEDLE (PyStr.lower (text response)));
      cbn [fst outcome_tag]; rewrite ?tag_of_to_pair, ?tag_of_retryable.
    all: repeat split; try discriminate; try tauto; try congruence.
    all: try (intros [? ?]; congruence).
Qed.

(** The state of the world after a call is the state after its one POST,
    whatever the answer was. *)
Lemma generate_image_world
    prompt model_id api_token num_steps guidance_scale w :
  snd (generate_image prompt model_id api_token num_steps guidance_scale w) =
  snd (requests_post (api_url model_id) (authorization api_token)
         (payload prompt num_steps guidance_scale) w).
Proof.
  rewrite generate_image_eq.
  destruct (requests_post _ _ _ w) as [[response|e] w']; [|reflexivity].
  destruct (status_code response =? 200)%Z.
  - destruct (Image_open (content response)); reflexivity.
  - destruct (PyStr.contains _ _); reflexivity.
Qed.

(** The messages that [generate_image] can return. *)
Lemma generate_image_messages
    prompt model_id api_token num_steps guidance_scale w image message w' :
  generate_image prompt model_id api_token num_steps guidance_scale w
    = (Returned (image, Some message), w') ->
  image = None /\
  (message = LOADING_MESSAGE \/
   exists status body, message = error_message status body).
Proof.
  rewrite generate_image_eq.
  destruct (requests_post _ _ _ w) as [[response|e] w1]; [|discriminate].
  destruct (status_code response =? 200)%Z.
  - destruct (Image_open (content response)); discriminate.
  - destruct (PyStr.contains _ _); intros [= <- <- _]; split; eauto.
Qed.

Lemma model_name_inj (m m' : Model) : model_name m = model_name m' -> m = m'.
Proof. destruct m, m'; (reflexivity || discriminate). Qed.

Lemma api_url_inj model_id model_id' :
  api_url model_id = api_url model_id' -> model_id = model_id'.
Proof. unfold api_url. cbn [String.append]. now intros [=]. Qed.

Lemma authorization_inj api_token api_token' :
  authorization api_token = authorization api_token' -> api_token = api_token'.
Proof. unfold authorization. cbn [String.append]. now intros [=]. Qed.

End DispatcherMore.

(** * Further properties of the page *)

Section PageMore.

Context `{RT : Runtime}.

Implicit Types (inp : Inputs) (ss : gmap string pyval) (w : World).

Lemma request_starts_cond inp :
  request_starts inp <->
  generate_clicked inp && PyStr.truthy (api_token inp)
    && PyStr.truthy (prompt inp) = true.
Proof.
  unfold request_starts. rewrite !andb_true_iff. tauto.
Qed.

(** The Generate block when a request starts: the call is made and its
    outcome decides the rest. *)
Lemma generate_block_request inp ss w :
  request_starts inp ->
  generate_block inp ss w =
  match generate_image (prompt inp) (model_name (model_id inp))
                       (api_token inp) (num_steps inp)
                       (guidance_scale inp) w with
  | (Raised e, w') => mkRun ss w' [call_of inp] (Uncaught e)
  | (Returned (Some img, _), w') =>
      mkRun (<["last_prompt" := PStr (prompt inp)]>
               (<["last_image" := PImage img]> ss))
            w' [call_of inp] Finished
  | (Returned (None, Some message), w') =>
      if PyStr.truthy message
      then mkRun ss w' [call_of inp; EvError message] Finished
      else mkRun ss w' [call_of inp] Finished
  | (Returned (None, None), w') => mkRun ss w' [call_of inp] Finished
  end.
Proof.
  intros (Hc & Ht & Hp). unfold generate_block. rewrite Hc, Ht, Hp.
  cbn [negb].
  destruct (generate_image _ _ _ _ _ w) as [[[[img|] [m|]]|e] w'];
    reflexivity.
Qed.

(** The Generate block when no request starts. *)
Lemma generate_block_idle inp ss w :
  generate_clicked inp = false ->
  generate_block inp ss w = mkRun ss w [] Finished.
Proof. intros Hc. unfold generate_block. now rewrite Hc. Qed.

(** X2. When the POST itself fails, [generate_image] raises the same
    exception, and the run ends there: the session is as before, the page
    shows neither an error message nor the held image nor a download. *)
Theorem network_failure_ends_run inp ss w (e : exn) w' :
  request_starts inp ->
  post_of inp w = (Raised e, w') ->
  generate_image (prompt inp) (model_name (model_id inp)) (api_token inp)
                 (num_steps inp) (guidance_scale inp) w
    = (Raised e, w') /\
  script inp ss w = mkRun ss w' [call_of inp] (Uncaught e).
Proof.
  intros Hreq Hpost. unfold post_of in Hpost.
  assert (E : generate_image (prompt inp) (model_name (model_id inp))
                (api_token inp) (num_steps inp) (guidance_scale inp) w
              = (Raised e, w')).
  { now rewrite generate_image_eq, Hpost. }
  split; [exact E|].
  unfold script. rewrite (generate_block_request inp ss w Hreq), E.
  reflexivity.
Qed.

(** X3. A run sends one POST when a request starts and none otherwise:
    whatever the answer, nothing is sent a second time. *)
Theorem script_posts_once inp ss w :
  world_after (script inp ss w) =
  if generate_clicked inp && PyStr.truthy (api_token inp)
     && PyStr.truthy (prompt inp)
  then snd (post_of inp w) else w.
Proof.
  destruct (_ && _) eqn:Hcond.
  - apply request_starts_cond in Hcond.
    rewrite script_world, (generate_block_request inp ss w Hcond).
    unfold post_of. rewrite <- generate_image_world.
    destruct (generate_image _ _ _ _ _ w) as [[[[img|] [m|]]|e] w'];
      try reflexivity.
    destruct (PyStr.truthy m); reflexivity.
  - now apply script_world_untouched.
Qed.

(** X4. The request tells the page it was sent from: two pages whose
    requests have the same address, the same authorization and the same
    payload have the same model, token, prompt, steps and guidance. *)
Theorem request_determines_inputs inp inp' :
  api_url (model_name (model_id inp)) = api_url (model_name (model_id inp')) ->
  authorization (api_token inp) = authorization (api_token inp') ->
  payload (prompt inp) (num_steps inp) (guidance_scale inp)
    = payload (prompt inp') (num_steps inp') (guidance_scale inp') ->
  model_id inp = model_id inp' /\ api_token inp = api_token inp' /\
  prompt inp = prompt inp' /\ num_steps inp = num_steps inp' /\
  guidance_scale inp = guidance_scale inp'.
Proof.
  intros Hurl Hauth Hpay.
  apply api_url_inj, model_name_inj in Hurl.
  apply authorization_inj in Hauth.
  unfold payload in Hpay. injection Hpay as Hp Hn Hg. tauto.
Qed.

(** *** Where the held image comes from *)

Lemma produced_by_call inp w (img : Image) (error : option string) w' :
  request_starts inp ->
  generate_image (prompt inp) (model_name (model_id inp)) (api_token inp)
                 (num_steps inp) (guidance_scale inp) w
    = (Returned (Some img, error), w') ->
  produced_by img (prompt inp).
Proof.
  intros (_ & Ht & Hp) H.
  pose proof (generate_image_returns_one _ _ _ _ _ _ _ _ H) as Hone.
  destruct error; [contradiction|].
  exists (model_id inp), (api_token inp), (num_steps inp),
    (guidance_scale inp), w.
  now rewrite H.
Qed.

Lemma script_provenance inp ss w :
  (ss = ∅ \/ exists img p, ss = holding img p /\ produced_by img p) ->
  session_after (script inp ss w) = ∅ \/
  exists img p,
    session_after (script inp ss w) = holding img p /\ produced_by img p.
Proof.
  intros Hss.
  assert (Hshape : at_most_one_result ss).
  { destruct Hss as [-> | (img & p & -> & _)]; [now left | right; eauto]. }
  assert (Hblock :
    session_after (generate_block inp ss w) = ∅ \/
    exists img p,
      session_after (generate_block inp ss w) = holding img p /\
      produced_by img p).
  { rewrite generate_block_session.
    destruct (_ && _) eqn:Hcond; [|exact Hss].
    apply request_starts_cond in Hcond.
    destruct (generate_image _ _ _ _ _ w) as [[[[img|] err]|e] w'] eqn:Hcall;
      cbn [fst]; try exact Hss.
    right. exists img, (prompt inp). split.
    - now apply store_over.
    - now apply produced_by_call with w err w'. }
  rewrite script_session.
  destruct (end_of_run (generate_block inp ss w)); try exact Hblock.
  set (s1 := session_after (generate_block inp ss w)) in *.
  set (w1 := world_after (generate_block inp ss w)).
  destruct (create_new_clicked inp) eqn:Hc.
  - destruct Hblock as [-> | (img & p & -> & Hprod)].
    + left. reflexivity.
    + unfold display_block. rewrite holding_image, holding_prompt, Hc.
      destruct (st_image img); [right; eauto|].
      destruct (Image_save_png img); cbn [session_after].
      * left. apply clear_holding.
      * right. eauto.
  - now rewrite display_block_keeps.
Qed.

(** X5. In every session that the script can produce, the held image came
    out of a call of [generate_image] on the held prompt, a prompt that is
    not empty: the caption under the image is never the prompt of another
    request. *)
Theorem held_image_produced_by_held_prompt ss (img : Image) (p : string) :
  reachable ss ->
  ss !! "last_image" = Some (PImage img) ->
  ss !! "last_prompt" = Some (PStr p) ->
  produced_by img p.
Proof.
  intros Hreach.
  assert (H : ss = ∅ \/
              exists img p, ss = holding img p /\ produced_by img p).
  { induction Hreach as [|inp ss w _ IH]; [now left|].
    now apply script_provenance. }
  destruct H as [-> | (img0 & p0 & -> & Hprod)].
  - rewrite lookup_empty. discriminate.
  - rewrite holding_image, holding_prompt. now intros [= <-] [= <-].
Qed.

End PageMore.

Section PageDisplay.

Context `{RT : Runtime}.

Implicit Types (inp : Inputs) (ss : gmap string pyval) (w : World).

(** The display of a session that holds an image and its prompt. *)
Lemma display_block_held inp ss w (img : Image) (p : string) :
  ss !! "last_image" = Some (PImage img) ->
  ss !! "last_prompt" = Some (PStr p) ->
  display_block inp ss w =
  match st_image img with
  | Some e => mkRun ss w [EvHeader "Your Generated Image"] (Uncaught e)
  | None =>
      match Image_save_png img with
      | None =>
          mkRun ss w [EvHeader "Your Generated Image"; EvImage img p]
                (Uncaught OSError)
      | Some data =>
          let shown :=
            [EvHeader "Your Generated Image"; EvImage img p;
             EvDownload data (download_file_name (now inp)) "image/png"] in
          if create_new_clicked inp
          then mkRun (delete "last_prompt" (delete "last_image" ss)) w shown
                     RerunRequested
          else mkRun ss w shown Finished
      end
  end.
Proof. intros Hi Hp. unfold display_block. now rewrite Hi, Hp. Qed.

Lemma display_block_nothing inp ss w :
  ss !! "last_image" = None ->
  display_block inp ss w = mkRun ss w [] Finished.
Proof. intros Hi. unfold display_block. now rewrite Hi. Qed.

(** X6. When the held image cannot be drawn, the run stops at [st.image]
    with the header alone on the page; when it is drawn but cannot be
    saved as PNG, the run stops at the save.  Either way no download is
    offered and a click on Create New Image has no effect, since that
    button comes after both; the session stays as it is. *)
Theorem undrawable_image_stays_held inp w (img : Image) (p : string) :
  generate_clicked inp = false ->
  is_Some (st_image img) \/ Image_save_png img = None ->
  script inp (holding img p) w =
  match st_image img with
  | Some e =>
      mkRun (holding img p) w [EvHeader "Your Generated Image"] (Uncaught e)
  | None =>
      mkRun (holding img p) w
            [EvHeader "Your Generated Image"; EvImage img p]
            (Uncaught OSError)
  end.
Proof.
  intros Hg Hfail. unfold script.
  rewrite (generate_block_idle inp _ w Hg). cbn [end_of_run session_after
    world_after trace].
  rewrite (display_block_held inp _ w img p (holding_image img p)
             (holding_prompt img p)).
  destruct (st_image img) as [e|]; [reflexivity|].
  destruct Hfail as [[e He] | Hsave]; [discriminate|].
  rewrite Hsave. reflexivity.
Qed.

(** X14. With no image held, a run in which Generate is not clicked draws
    the tips and nothing else and leaves the session as it is, also when
    Create New Image reports a click: there is nothing to clear. *)
Theorem nothing_held_nothing_cleared inp ss w :
  ss !! "last_image" = None ->
  generate_clicked inp = false ->
  script inp ss w = mkRun ss w [EvTips] Finished.
Proof.
  intros Hi Hg. unfold script.
  rewrite (generate_block_idle inp ss w Hg). cbn [end_of_run session_after
    world_after trace].
  rewrite (display_block_nothing inp ss w Hi). cbn [end_of_run session_after
    world_after trace app].
  unfold tips_block. now rewrite Hi.
Qed.

(** X15. A run in which no button reports a click, such as the redraw
    after the prompt or a slider was edited, sends nothing and leaves the
    session and the world as they are, whatever the session holds. *)
Theorem idle_run_changes_nothing inp ss w :
  generate_clicked inp = false ->
  create_new_clicked inp = false ->
  session_after (script inp ss w) = ss /\
  world_after (script inp ss w) = w /\
  dispatched (trace (script inp ss w)) = [].
Proof.
  intros Hg Hc. repeat split.
  - rewrite script_keeps_after_block by exact Hc.
    now rewrite (generate_block_idle inp ss w Hg).
  - rewrite script_world. now rewrite (generate_block_idle inp ss w Hg).
  - rewrite script_dispatched, Hg. reflexivity.
Qed.

(** X11. A request that succeeds, from any session: the new image is
    stored with the prompt of the page, and the same run goes on to draw
    it.  If [st.image] raises, the run ends there with the header alone;
    if the save raises, it ends there with the image drawn; otherwise the
    image is drawn under the prompt of the page and offered for download
    under the name of the clock, and the run ends normally, or, when
    Create New Image reports a click too, with the two names removed and a
    rerun.  The image held before is never drawn. *)
Theorem successful_request_run inp ss w (img : Image) w' :
  request_starts inp ->
  generate_image (prompt inp) (model_name (model_id inp)) (api_token inp)
                 (num_steps inp) (guidance_scale inp) w
    = (Returned (Some img, None), w') ->
  let stored :=
    <["last_prompt" := PStr (prompt inp)]>
      (<["last_image" := PImage img]> ss) in
  script inp ss w =
  match st_image img with
  | Some e =>
      mkRun stored w' [call_of inp; EvHeader "Your Generated Image"]
            (Uncaught e)
  | None =>
      match Image_save_png img with
      | None =>
          mkRun stored w'
                [call_of inp; EvHeader "Your Generated Image";
                 EvImage img (prompt inp)]
                (Uncaught OSError)
      | Some data =>
          let shown :=
            [call_of inp; EvHeader "Your Generated Image";
             EvImage img (prompt inp);
             EvDownload data (download_file_name (now inp)) "image/png"] in
          if create_new_clicked inp
          then mkRun (delete "last_prompt" (delete "last_image" stored)) w'
                     shown RerunRequested
          else mkRun stored w' shown Finished
      end
  end.
Proof.
  intros Hreq Hcall stored. unfold script.
  rewrite (generate_block_request inp ss w Hreq), Hcall.
  cbn [end_of_run session_after world_after trace]. fold stored.
  rewrite (display_block_held inp stored w' img (prompt inp))
    by (subst stored; by simplify_map_eq).
  destruct (st_image img) as [e|]; [reflexivity|].
  destruct (Image_save_png img) as [data|]; [|reflexivity].
  destruct (create_new_clicked inp); [reflexivity|].
  cbn [end_of_run session_after world_after trace app].
  unfold tips_block. subst stored. by simplify_map_eq.
Qed.

Lemma returned_message_nonempty (m : string) :
  m = LOADING_MESSAGE \/ (exists status body, m = error_message status body) ->
  PyStr.truthy m = true.
Proof. intros [-> | (status & body & ->)]; reflexivity. Qed.

(** X12. A request that returns an error while an image is held: the
    error message is shown and the run goes on to the held image.  If
    [st.image] raises on it, the run ends there; if the save raises, it
    ends there with the image drawn; otherwise the held image is drawn
    under its own prompt and offered for download, and the run ends
    normally with the session as before, or, when Create New Image reports
    a click too, with the session emptied and a rerun. *)
Theorem failed_request_run inp w (img : Image) (p message : string) w' :
  request_starts inp ->
  generate_image (prompt inp) (model_name (model_id inp)) (api_token inp)
                 (num_steps inp) (guidance_scale inp) w
    = (Returned (None, Some message), w') ->
  script inp (holding img p) w =
  match st_image img with
  | Some e =>
      mkRun (holding img p) w'
            [call_of inp; EvError message; EvHeader "Your Generated Image"]
            (Uncaught e)
  | None =>
      match Image_save_png img with
      | None =>
          mkRun (holding img p) w'
                [call_of inp; EvError message;
                 EvHeader "Your Generated Image"; EvImage img p]
                (Uncaught OSError)
      | Some data =>
          let shown :=
            [call_of inp; EvError message; EvHeader "Your Generated Image";
             EvImage img p;
             EvDownload data (download_file_name (now inp)) "image/png"] in
          if create_new_clicked inp
          then mkRun ∅ w' shown RerunRequested
          else mkRun (holding img p) w' shown Finished
      end
  end.
Proof.
  intros Hreq Hcall. unfold script.
  pose proof (generate_image_messages _ _ _ _ _ _ _ _ _ Hcall) as [_ Hm].
  apply returned_message_nonempty in Hm.
  rewrite (generate_block_request inp _ w Hreq), Hcall, Hm.
  cbn [end_of_run session_after world_after trace].
  rewrite (display_block_held inp _ w' img p (holding_image img p)
             (holding_prompt img p)).
  destruct (st_image img) as [e|]; [reflexivity|].
  destruct (Image_save_png img) as [data|]; [|reflexivity].
  destruct (create_new_clicked inp);
    cbn [end_of_run session_after world_after trace app].
  - now rewrite clear_holding.
  - unfold tips_block. now rewrite holding_image.
Qed.

(** The session after the display: as before, or with the two names
    removed. *)
Lemma display_block_session inp ss w :
  session_after (display_block inp ss w) = ss \/
  session_after (display_block inp ss w)
    = delete "last_prompt" (delete "last_image" ss).
Proof.
  unfold display_block.
  repeat (match goal with |- context [match ?x with _ => _ end] =>
            destruct x end); cbn [session_after]; auto.
Qed.

(** X10. A run reads and writes [last_image] and [last_prompt] only:
    whatever else the session holds is the same after the run. *)
Theorem script_keeps_other_names inp ss w (k : string) :
  k <> "last_image" -> k <> "last_prompt" ->
  session_after (script inp ss w) !! k = ss !! k.
Proof.
  intros Hi Hp.
  assert (Hblock : session_after (generate_block inp ss w) !! k = ss !! k).
  { rewrite generate_block_session.
    destruct (_ && _); [|reflexivity].
    destruct (fst _) as [[[img|] ?]|]; try reflexivity.
    by rewrite !lookup_insert_ne. }
  rewrite script_session.
  destruct (end_of_run (generate_block inp ss w)); try exact Hblock.
  destruct (display_block_session inp (session_after (generate_block inp ss w))
              (world_after (generate_block inp ss w))) as [-> | ->];
    [exact Hblock|].
  by rewrite !lookup_delete_ne.
Qed.

(** X13. From a session that the script can produce, a run ends at an
    exception only where a library raises: in the call of
    [generate_image], in [st.image] on the held image, or in the save of
    the held image once it is drawn.  The reads of [last_image] and
    [last_prompt] never fail. *)
Theorem uncaught_only_from_libraries inp ss w (e : exn) :
  reachable ss ->
  end_of_run (script inp ss w) = Uncaught e ->
  (request_starts inp /\
   fst (generate_image (prompt inp) (model_name (model_id inp))
          (api_token inp) (num_steps inp) (guidance_scale inp) w)
     = Raised e) \/
  (exists img,
     session_after (generate_block inp ss w) !! "last_image"
       = Some (PImage img) /\
     st_image img = Some e) \/
  (e = OSError /\
   exists img,
     session_after (generate_block inp ss w) !! "last_image"
       = Some (PImage img) /\
     st_image img = None /\
     Image_save_png img = None).
Proof.
  intros Hreach.
  apply reachable_session_shape in Hreach.
  pose proof (generate_block_shape inp ss w Hreach) as Hshape.
  unfold script.
  destruct (end_of_run (generate_block inp ss w)) as [| |e1] eqn:Hend.
  - set (s1 := session_after (generate_block inp ss w)) in *.
    set (w1 := world_after (generate_block inp ss w)).
    destruct Hshape as [Hs | (img & p & Hs)]; rewrite Hs.
    + rewrite display_block_nothing by apply lookup_empty. discriminate.
    + rewrite (display_block_held inp _ w1 img p (holding_image img p)
                 (holding_prompt img p)).
      destruct (st_image img) as [e0|] eqn:Hdraw.
      * cbn [end_of_run]. intros [= <-]. right. left.
        exists img. split; [apply holding_image | exact Hdraw].
      * destruct (Image_save_png img) eqn:Hsave.
        -- destruct (create_new_clicked inp); discriminate.
        -- cbn [end_of_run]. intros [= <-]. right. right.
           split; [reflexivity|].
           exists img.
           split; [apply holding_image | split; [exact Hdraw | exact Hsave]].
  - exfalso. revert Hend. unfold generate_block.
    repeat (match goal with |- context [match ?x with _ => _ end] =>
              destruct x end); discriminate.
  - intros He. rewrite Hend in He. injection He as ->.
    left. revert Hend. unfold generate_block, request_starts.
    destruct (generate_clicked inp); [|discriminate].
    destruct (PyStr.truthy (api_token inp)); [|discriminate].
    destruct (PyStr.truthy (prompt inp)); [|discriminate].
    cbn [negb].
    destruct (generate_image _ _ _ _ _ w) as [[[[img|] [m|]]|e0] w'];
      try discriminate.
    + destruct (PyStr.truthy m); discriminate.
    + intros [= ->]. auto.
Qed.

End PageDisplay.

Section PageMessages.

Context `{RT : Runtime}.

Implicit Types (inp : Inputs) (ss : gmap string pyval) (w : World).

Lemma images_shown_app (a b : list event) :
  images_shown (a ++ b) = (images_shown a ++ images_shown b)%list.
Proof.
  induction a as [|e a IH]; [reflexivity|].
  destruct e; cbn [images_shown app]; now rewrite ?IH.
Qed.

(** What the Generate block draws: the call and at most an error. *)
Lemma generate_block_trace inp ss w (e : event) :
  In e (trace (generate_block inp ss w)) ->
  e = call_of inp \/ exists message, e = EvError message.
Proof.
  unfold generate_block, call_of.
  repeat (match goal with |- context [match ?x with _ => _ end] =>
            destruct x end);
    cbn [trace In]; intros H; decompose [or] H; subst; eauto; contradiction.
Qed.

(** What the display draws: a header, an image, a download. *)
Lemma display_block_trace inp ss w (e : event) :
  In e (trace (display_block inp ss w)) ->
  (exists title, e = EvHeader title) \/
  (exists img caption, e = EvImage img caption) \/
  (exists data name mime, e = EvDownload data name mime).
Proof.
  unfold display_block.
  repeat (match goal with |- context [match ?x with _ => _ end] =>
            destruct x end);
    cbn [trace In]; intros H; decompose [or] H; subst; eauto 6; contradiction.
Qed.

(** The error messages of a run are those of its Generate block. *)
Lemma script_errors inp ss w (message : string) :
  In (EvError message) (trace (script inp ss w)) <->
  In (EvError message) (trace (generate_block inp ss w)).
Proof.
  split; [|apply script_trace_block].
  intros H. apply script_trace_parts in H as [H | [H | H]];
    [exact H | | discriminate].
  apply display_block_trace in H
    as [(? & H) | [(? & ? & H) | (? & ? & ? & H)]]; discriminate.
Qed.

(** X8. The two messages about missing input appear exactly when the
    button reports a click although it was drawn disabled: the one about
    the token when the token is empty, the one about the prompt when only
    the prompt is empty; and a click leads to a call exactly when the
    button was not drawn disabled. *)
Theorem missing_input_messages inp ss w :
  (dispatched (trace (script inp ss w)) <> [] <->
   generate_clicked inp = true /\ generate_disabled inp = false) /\
  (In (EvError TOKEN_MISSING) (trace (script inp ss w)) <->
   generate_clicked inp = true /\ api_token inp = EmptyString) /\
  (In (EvError PROMPT_MISSING) (trace (script inp ss w)) <->
   generate_clicked inp = true /\ api_token inp <> EmptyString /\
   prompt inp = EmptyString).
Proof.
  rewrite script_dispatched, !script_errors.
  unfold generate_disabled, TOKEN_MISSING, PROMPT_MISSING.
  destruct (generate_clicked inp) eqn:Hc.
  2:{ rewrite (generate_block_idle inp ss w Hc). cbn.
      intuition congruence. }
  destruct (api_token inp) as [|c tok] eqn:Ht.
  { unfold generate_block. rewrite Hc, Ht. cbn. intuition congruence. }
  destruct (prompt inp) as [|d p] eqn:Hp.
  { unfold generate_block. rewrite Hc, Ht, Hp. cbn. intuition congruence. }
  assert (Hreq : request_starts inp).
  { unfold request_starts. now rewrite Hc, Ht, Hp. }
  assert (Hmsg : forall m,
            In (EvError m) (trace (generate_block inp ss w)) ->
            m = LOADING_MESSAGE \/
            exists status body, m = error_message status body).
  { intros m. rewrite (generate_block_request inp ss w Hreq).
    destruct (generate_image _ _ _ _ _ w) as [[[[img|] [message|]]|e] w']
      eqn:Hcall; cbn [trace In]; unfold call_of;
      try (intros H; decompose [or] H; discriminate || contradiction).
    apply generate_image_messages in Hcall as [_ Hcall].
    destruct (PyStr.truthy message); cbn [trace In];
      intros H; decompose [or] H; try discriminate; try contradiction.
    match goal with E : EvError _ = EvError _ |- _ => injection E as E end.
    now subst message. }
  cbn [andb PyStr.truthy negb orb].
  repeat split; try discriminate; try tauto.
  all: try (intros H; apply Hmsg in H as [H | (status & body & H)];
            discriminate H).
  all: try (intros (_ & H); discriminate H).
  all: try (intros (_ & _ & H); discriminate H).
  all: exfalso; apply Hmsg in H as [H | (status & body & H)]; discriminate H.
Qed.

(** X7. The tips are drawn exactly in the runs that end normally with no
    image held, and never in a run that draws an image. *)
Theorem tips_when_nothing_held inp ss w :
  (In EvTips (trace (script inp ss w)) <->
   end_of_run (script inp ss w) = Finished /\
   session_after (script inp ss w) !! "last_image" = None) /\
  (In EvTips (trace (script inp ss w)) ->
   images_shown (trace (script inp ss w)) = []).
Proof.
  assert (Hg : ~ In EvTips (trace (generate_block inp ss w))).
  { intros H. apply generate_block_trace in H as [H | [? H]];
      discriminate H. }
  assert (Hgi : images_shown (trace (generate_block inp ss w)) = []).
  { unfold generate_block.
    repeat (match goal with |- context [match ?x with _ => _ end] =>
              destruct x end); reflexivity. }
  assert (Hd : forall s1 w1, ~ In EvTips (trace (display_block inp s1 w1))).
  { intros s1 w1 H. apply display_block_trace in H
      as [(? & H) | [(? & ? & H) | (? & ? & ? & H)]]; discriminate. }
  unfold script.
  destruct (end_of_run (generate_block inp ss w)) eqn:Hend.
  2,3: split; [split; [intros H; now apply Hg in H | rewrite Hend; intros [[=] _]]
              | intros H; now apply Hg in H].
  set (s1 := session_after (generate_block inp ss w)) in *.
  set (w1 := world_after (generate_block inp ss w)).
  specialize (Hd s1 w1).
  revert Hd. unfold display_block, tips_block.
  destruct (s1 !! "last_image") as [[img|s]|] eqn:Hi;
    [destruct (s1 !! "last_prompt") as [[img'|caption]|] eqn:Hp ..|];
    try (destruct (st_image img) as [e|] eqn:Hdraw;
         [|destruct (Image_save_png img) as [data|] eqn:Hsave;
           [destruct (create_new_clicked inp)|]]);
    cbn [end_of_run session_after trace]; rewrite ?Hi; intros Hd;
    rewrite ?in_app_iff, ?images_shown_app, ?Hgi; cbn [In images_shown app];
    intuition congruence.
Qed.

End PageMessages.

(** * Further properties of the name of the download *)

Module ClockMore.

Lemma digit_value_digit (n : Z) : digit_value (digit n) = n mod 10.
Proof.
  unfold digit_value, digit.
  pose proof (Z.mod_pos_bound n 10 eq_refl) as Hb.
  rewrite N_ascii_embedding by lia. lia.
Qed.

Lemma digit_inj (a b : Z) : digit a = digit b -> a mod 10 = b mod 10.
Proof.
  intros H. rewrite <- !digit_value_digit. now rewrite H.
Qed.

Lemma two_digits_inj (a b : Z) :
  0 <= a <= 99 -> 0 <= b <= 99 -> two_digits a = two_digits b -> a = b.
Proof.
  intros Ha Hb H. unfold two_digits in H. injection H as H1 H0.
  apply digit_inj in H1, H0.
  rewrite (Z.div_mod a 10), (Z.div_mod b 10) by lia.
  rewrite (Z.mod_small (a / 10) 10), (Z.mod_small (b / 10) 10) in H1;
    [lia | |]; split; try (apply Z.div_pos; lia);
    apply Z.div_lt_upper_bound; lia.
Qed.

Lemma four_digits_inj (a b : Z) :
  0 <= a <= 9999 -> 0 <= b <= 9999 -> four_digits a = four_digits b -> a = b.
Proof.
  intros Ha Hb H. unfold four_digits, two_digits in H.
  injection H as H3 H2 H1 H0.
  apply digit_inj in H3, H2, H1, H0.
  Z.div_mod_to_equations. lia.
Qed.

(** X9. Two readings of the clock that differ, be it by one second, give
    two different names for the download: the name determines the reading
    to the second. *)
Theorem download_file_name_inj (d d' : datetime) :
  datetime_valid d -> datetime_valid d' ->
  download_file_name d = download_file_name d' ->
  d = d'.
Proof.
  destruct d as [y mo dd h mi sec], d' as [y' mo' dd' h' mi' sec'].
  unfold datetime_valid. cbn [year month day hour minute second].
  intros (Hy & Hmo & Hd & Hh & Hmi & Hs) (Hy' & Hmo' & Hd' & Hh' & Hmi' & Hs').
  unfold download_file_name, strftime_Ymd_HMS.
  cbn [year month day hour minute second].
  intros H.
  assert (E : four_digits y = four_digits y' /\ two_digits mo = two_digits mo' /\
              two_digits dd = two_digits dd' /\ two_digits h = two_digits h' /\
              two_digits mi = two_digits mi' /\ two_digits sec = two_digits sec').
  { unfold four_digits, two_digits in *. cbn in H.
    injection H as Hy3 Hy2 Hy1 Hy0 Hm1 Hm0 Hd1 Hd0 Hh1 Hh0 Hi1 Hi0 Hs1 Hs0.
    repeat split; congruence. }
  destruct E as (Ey & Emo & Ed & Eh & Emi & Es).
  apply four_digits_inj in Ey; [|lia|lia].
  apply two_digits_inj in Emo, Ed, Eh, Emi, Es; try lia.
  congruence.
Qed.

End ClockMore.

(** * Further concrete runs *)

Module MockMore.
Import Mock.

(** A request met by a cold start is tagged retryable, for the reason the
    tag stands for. *)
Lemma tag_characterises_response_witness :
  outcome_tag
    (fst (@generate_image runtime "cold start" sd21 "hf_demo" 50
            seven_and_a_half 0%nat))
    = Returned (Some TagRetryable) <->
  503 <> 200 /\
  PyStr.contains_nocase LOADING_NEEDLE
    "error: Waiting for the model to be LOADED (estimated_time 20.0)".
Proof.
  exact (proj1 (proj2
    (@tag_characterises_response runtime "cold start" sd21 "hf_demo" 50
       seven_and_a_half 0%nat
       (mkResponse 503 []
          "error: Waiting for the model to be LOADED (estimated_time 20.0)")
       1%nat eq_refl))).
Defined.

(** The network is down while the red ball is held. *)
Lemma network_failure_ends_run_witness :
  @script runtime (ask "hf_demo" "offline" later) (session_after first_run)
          (world_after first_run)
    = mkRun (session_after first_run) 2%nat
            [call_of (ask "hf_demo" "offline" later)]
            (Uncaught RequestException).
Proof.
  apply (@network_failure_ends_run runtime (ask "hf_demo" "offline" later)
           (session_after first_run) (world_after first_run)
           RequestException 2%nat).
  - repeat split.
  - reflexivity.
Defined.

Lemma request_determines_inputs_witness :
  model_id (ask "hf_demo" "a red ball" noon)
    = model_id (redraw "hf_demo" "a red ball" later).
Proof.
  apply (@request_determines_inputs runtime (ask "hf_demo" "a red ball" noon)
           (redraw "hf_demo" "a red ball" later)); reflexivity.
Defined.

Lemma held_image_produced_by_held_prompt_witness :
  @produced_by runtime red_ball "a red ball".
Proof.
  apply (@held_image_produced_by_held_prompt runtime (session_after first_run)).
  - exact MockFacts.first_run_reachable.
  - reflexivity.
  - reflexivity.
Defined.

(** A held image cut short after its header: the header is drawn, then
    [st.image] raises, and the click on Create New Image is lost. *)
Lemma undrawable_image_stays_held_witness :
  @script truncating (truncating_clear later)
          (@holding truncating [] "a red ball") 1%nat
    = mkRun (@holding truncating [] "a red ball") 1%nat
            [EvHeader "Your Generated Image"] (Uncaught OSError).
Proof.
  apply (@undrawable_image_stays_held truncating (truncating_clear later)
           1%nat [] "a red ball").
  - reflexivity.
  - left. eexists. reflexivity.
Defined.

(** The same with an encoder that alone refuses the image: the image is
    drawn, then the save raises. *)
Example unsavable_image_is_drawn :
  @script picky (picky_clear later) (@holding picky [] "a red ball") 1%nat
    = mkRun (@holding picky [] "a red ball") 1%nat
            [EvHeader "Your Generated Image"; @EvImage picky [] "a red ball"]
            (Uncaught OSError).
Proof. reflexivity. Qed.

Lemma tips_when_nothing_held_witness :
  images_shown
    (trace (@script runtime (redraw "hf_demo" "a red ball" noon) ∅ 0%nat))
    = [].
Proof.
  apply (proj2 (@tips_when_nothing_held runtime
                  (redraw "hf_demo" "a red ball" noon) ∅ 0%nat)).
  left. reflexivity.
Defined.

Lemma missing_input_messages_witness :
  In (EvError TOKEN_MISSING)
     (trace (@script runtime (ask EmptyString EmptyString noon) ∅ 0%nat)).
Proof.
  apply (proj1 (proj2 (@missing_input_messages runtime
                         (ask EmptyString EmptyString noon) ∅ 0%nat))).
  split; reflexivity.
Defined.

Lemma download_file_name_inj_witness : noon = noon.
Proof.
  apply (ClockMore.download_file_name_inj noon noon).
  - unfold datetime_valid, noon. cbn. lia.
  - unfold datetime_valid, noon. cbn. lia.
  - reflexivity.
Defined.

Lemma script_keeps_other_names_witness :
  session_after
    (@script runtime (clear "hf_demo" "a red ball" later)
       (<["theme" := PStr "dark"]> (session_after first_run)) 1%nat)
    !! "theme" = Some (@PStr runtime "dark").
Proof.
  rewrite (@script_keeps_other_names runtime
             (clear "hf_demo" "a red ball" later)
             (<["theme" := PStr "dark"]> (session_after first_run)) 1%nat
             "theme").
  - reflexivity.
  - discriminate.
  - discriminate.
Defined.

Lemma successful_request_run_witness :
  @script runtime (ask "hf_demo" "a blue cube" later) (session_after first_run)
          (world_after first_run)
    = mkRun (<["last_prompt" := PStr "a blue cube"]>
               (<["last_image" := @PImage runtime [x09]]>
                  (session_after first_run)))
            2%nat
            [call_of (ask "hf_demo" "a blue cube" later);
             EvHeader "Your Generated Image";
             @EvImage runtime [x09] "a blue cube";
             EvDownload blue_cube_png "ai_image_20240309_120741.png"
                        "image/png"]
            Finished.
Proof.
  apply (@successful_request_run runtime (ask "hf_demo" "a blue cube" later)
           (session_after first_run) (world_after first_run) [x09] 2%nat).
  - repeat split.
  - reflexivity.
Defined.

Lemma failed_request_run_witness :
  @script runtime (ask "hf_demo" "cold start" later)
          (@holding runtime red_ball "a red ball") 1%nat
    = mkRun (@holding runtime red_ball "a red ball") 2%nat
            [call_of (ask "hf_demo" "cold start" later);
             EvError LOADING_MESSAGE;
             EvHeader "Your Generated Image";
             @EvImage runtime red_ball "a red ball";
             EvDownload red_ball_png "ai_image_20240309_120741.png"
                        "image/png"]
            Finished.
Proof.
  apply (@failed_request_run runtime (ask "hf_demo" "cold start" later) 1%nat
           red_ball "a red ball" LOADING_MESSAGE 2%nat).
  - repeat split.
  - reflexivity.
Defined.

Lemma uncaught_only_from_libraries_witness :
  (request_starts (ask "hf_demo" "not an image" later) /\
   fst (@generate_image runtime "not an image" sd21 "hf_demo" 50
          seven_and_a_half 1%nat)
     = Raised UnidentifiedImageError) \/
  (exists img,
     session_after
       (@generate_block runtime (ask "hf_demo" "not an image" later)
          (session_after first_run) 1%nat) !! "last_image"
       = Some (PImage img) /\
     @st_image runtime img = Some UnidentifiedImageError) \/
  (UnidentifiedImageError = OSError /\
   exists img,
     session_after
       (@generate_block runtime (ask "hf_demo" "not an image" later)
          (session_after first_run) 1%nat) !! "last_image"
       = Some (PImage img) /\
     @st_image runtime img = None /\
     @Image_save_png runtime img = None).
Proof.
  apply (@uncaught_only_from_libraries runtime
           (ask "hf_demo" "not an image" later) (session_after first_run)
           1%nat UnidentifiedImageError).
  - exact MockFacts.first_run_reachable.
  - reflexivity.
Defined.

Lemma nothing_held_nothing_cleared_witness :
  @script runtime (clear "hf_demo" "a red ball" noon) ∅ 0%nat
    = @mkRun runtime ∅ 0%nat [EvTips] Finished.
Proof.
  apply (@nothing_held_nothing_cleared runtime
           (clear "hf_demo" "a red ball" noon) ∅ 0%nat); reflexivity.
Defined.

Lemma idle_run_changes_nothing_witness :
  session_after
    (@script runtime (redraw "hf_demo" "a green cone" later)
       (session_after first_run) (world_after first_run))
    = session_after first_run /\
  world_after
    (@script runtime (redraw "hf_demo" "a green cone" later)
       (session_after first_run) (world_after first_run)) = 1%nat /\
  dispatched
    (trace (@script runtime (redraw "hf_demo" "a green cone" later)
              (session_after first_run) (world_after first_run))) = [].
Proof.
  apply (@idle_run_changes_nothing runtime
           (redraw "hf_demo" "a green cone" later) (session_after first_run)
           (world_after first_run)); reflexivity.
Defined.

End MockMore.
